(** * EquiAid Navigator: the profile-to-recommendation contract of [app.py]

    A shallow embedding of [src/app.py]: the module-level configuration, the
    fetcher [ai_fetch_awards] and the page function [main], followed by the
    properties of the request/response contract.

    Python values are modelled as they exist at run time: [str] is a sequence
    of Unicode code points, [int] is unbounded ([Z]), a [dict] is the list of
    its items in insertion order.  Effects are explicit: every call of
    [client.chat.completions.create] is appended to a request trace, every
    Streamlit call to a log of page elements, and exceptions are values of an
    error monad.  What belongs to the interpreter or to third-party libraries
    and cannot be read off the repository (the JSON decoder, the upstream
    service, [repr] of floats and containers, the non-ASCII upper-case table)
    is a variable of the section holding the program. *)

From Stdlib Require Import ZArith NArith QArith List String Ascii Bool Lia.
From Stdlib Require Import Floats.SpecFloat DecimalString.
From Stdlib Require DecimalPos DecimalZ.
Import ListNotations.

Set Implicit Arguments.
Set Warnings "-register-all".

Local Open Scope N_scope.

(* ================================================================== *)
(** ** Python strings *)

Module PyStr.

(** One Unicode code point. *)
Definition codepoint := N.

(** A Python [str]. *)
Definition pystr := list codepoint.

Fixpoint eqb (a b : pystr) : bool :=
  match a, b with
  | [], [] => true
  | x :: a', y :: b' => N.eqb x y && eqb a' b'
  | _, _ => false
  end.

(** Source literals are written as UTF-8 text; [utf8_decode] gives the code
    points the interpreter sees. *)
Fixpoint utf8_decode (bs : list N) : pystr :=
  match bs with
  | [] => []
  | b0 :: r0 =>
      if b0 <? 128 then b0 :: utf8_decode r0
      else
        match r0 with
        | [] => []
        | b1 :: r1 =>
            if b0 <? 224 then
              ((b0 mod 32) * 64 + b1 mod 64) :: utf8_decode r1
            else
              match r1 with
              | [] => []
              | b2 :: r2 =>
                  if b0 <? 240 then
                    ((b0 mod 16) * 4096 + (b1 mod 64) * 64 + b2 mod 64)
                      :: utf8_decode r2
                  else
                    match r2 with
                    | [] => []
                    | b3 :: r3 =>
                        ((b0 mod 8) * 262144 + (b1 mod 64) * 4096
                         + (b2 mod 64) * 64 + b3 mod 64)
                          :: utf8_decode r3
                    end
              end
        end
  end.

Definition py (s : string) : pystr :=
  utf8_decode (map Byte.to_N (list_byte_of_string s)).

Global Arguments py : simpl never.

(** The double quote and the line feed, which literals below splice in. *)
Definition dq : pystr := [34].
Definition nl : pystr := [10].

(** [quoted s] is [s] between double quotes. *)
Definition quoted (s : pystr) : pystr := dq ++ s ++ dq.

(** [str.isspace] on one character: the code points CPython's
    [_PyUnicode_IsWhitespace] accepts. *)
Definition isspace (c : codepoint) : bool :=
  ((9 <=? c) && (c <=? 13))
  || ((28 <=? c) && (c <=? 32))
  || (c =? 133) || (c =? 160) || (c =? 5760)
  || ((8192 <=? c) && (c <=? 8202))
  || (c =? 8232) || (c =? 8233) || (c =? 8239) || (c =? 8287)
  || (c =? 12288).

Fixpoint lstrip (s : pystr) : pystr :=
  match s with
  | [] => []
  | c :: s' => if isspace c then lstrip s' else s
  end.

Definition rstrip (s : pystr) : pystr := rev (lstrip (rev s)).

(** [s.strip()]: both ends, no argument. *)
Definition strip (s : pystr) : pystr := rstrip (lstrip s).

(** Decimal text of an [int]. *)
Definition of_Z (z : Z) : pystr := py (NilZero.string_of_int (Z.to_int z)).

(** [sep.join(parts)]. *)
Fixpoint join (sep : pystr) (parts : list pystr) : pystr :=
  match parts with
  | [] => []
  | [p] => p
  | p :: rest => p ++ sep ++ join sep rest
  end.

(** [s.startswith(prefix)]. *)
Fixpoint startswith (prefix s : pystr) : bool :=
  match prefix, s with
  | [], _ => true
  | p :: prefix', c :: s' => N.eqb p c && startswith prefix' s'
  | _ :: _, [] => false
  end.

(** [s * n] for a string [s]. *)
Fixpoint repeat_str (s : pystr) (n : nat) : pystr :=
  match n with
  | O => []
  | S n' => s ++ repeat_str s n'
  end.

End PyStr.
Import PyStr.

(* ================================================================== *)
(** ** Python values, as [json.loads] produces and [json.dumps] accepts *)

Inductive pyval : Type :=
| PNone
| PBool (b : bool)
| PInt (n : Z)
| PFloat (f : spec_float)
| PStr (s : pystr)
| PList (items : list pyval)
| PDict (items : list (pystr * pyval)).

(** A [dict] with [str] keys. *)
Definition pydict := list (pystr * pyval).

(** [d.get(key)] at the level of the items: the value stored under [key]. *)
Fixpoint dict_lookup (key : pystr) (d : pydict) : option pyval :=
  match d with
  | [] => None
  | (k, v) :: d' => if PyStr.eqb k key then Some v else dict_lookup key d'
  end.

(** [del d[key]], where present. *)
Fixpoint dict_remove (key : pystr) (d : pydict) : pydict :=
  match d with
  | [] => []
  | (k, v) :: d' =>
      if PyStr.eqb k key then dict_remove key d' else (k, v) :: dict_remove key d'
  end.

(** [bool(v)]: Python truth value. *)
Definition truthy (v : pyval) : bool :=
  match v with
  | PNone => false
  | PBool b => b
  | PInt n => negb (Z.eqb n 0)
  | PFloat (S754_zero _) => false
  | PFloat _ => true
  | PStr s => match s with [] => false | _ => true end
  | PList l => match l with [] => false | _ => true end
  | PDict d => match d with [] => false | _ => true end
  end.

(** [type(v).__name__]. *)
Definition type_name (v : pyval) : pystr :=
  match v with
  | PNone => py "NoneType"
  | PBool _ => py "bool"
  | PInt _ => py "int"
  | PFloat _ => py "float"
  | PStr _ => py "str"
  | PList _ => py "list"
  | PDict _ => py "dict"
  end.

Definition is_list (v : pyval) : bool :=
  match v with PList _ => true | _ => false end.

(** [d[key] = v] on the items: an existing key keeps its position. *)
Fixpoint dict_set (key : pystr) (v : pyval) (d : pydict) : pydict :=
  match d with
  | [] => [(key, v)]
  | (k, v0) :: d' =>
      if PyStr.eqb k key then (k, v) :: d' else (k, v0) :: dict_set key v d'
  end.

(* ================================================================== *)
(** ** Exceptions, requests, page elements *)

(** The exception classes that can travel through [app.py].  All of them
    derive from [Exception].  [APIError] stands for whatever the client
    library raises out of [create] (connection, authentication, quota). *)
Inductive exn_class : Type :=
| RuntimeError
| JSONDecodeError
| TypeError
| AttributeError
| IndexError
| APIError.

(** An exception instance; [exn_msg] is what [str(e)] returns. *)
Record exn : Type := Exn { exn_cls : exn_class; exn_msg : pystr }.

(** [OpenAI(api_key=...)]. *)
Record OpenAI : Type := { api_key : option pystr }.

(** One entry of [messages]. *)
Record message : Type := { role : pystr; content : pystr }.

(** The keyword arguments of [client.chat.completions.create]. *)
Record request : Type := {
  model : pystr;
  response_format : list (pystr * pystr);
  messages : list message;
  temperature : Q
}.

(** What the code reads of a completion: [choices[i].message.content],
    which the client types as an optional string. *)
Record choice : Type := { message_content : option pystr }.
Record completion : Type := { choices : list choice }.

(** Streamlit calls that put something on the page, in call order. *)
Inductive st_event : Type :=
| St_set_page_config (page_title page_icon layout : pystr)
| St_title (body : pystr)
| St_write (body : pyval)
| St_markdown (body : pystr)
| St_subheader (body : pystr)
| St_caption (body : pystr)
| St_warning (body : pystr)
| St_error (body : pystr)
| St_form (key : pystr)
| St_spinner (text : pystr)
| St_container.

(** The observable state of one script run: the calls made to the upstream
    service and the elements put on the page. *)
Record world : Type := { net : list request; ui : list st_event }.

Definition world0 : world := {| net := []; ui := [] |}.

(* ================================================================== *)
(** ** The monad of a script run: state and exceptions *)

Definition M (A : Type) : Type := world -> (exn + A) * world.

Definition ret {A} (a : A) : M A := fun w => (inr a, w).

Definition raise {A} (e : exn) : M A := fun w => (inl e, w).

Definition bind {A B} (m : M A) (k : A -> M B) : M B :=
  fun w =>
    match m w with
    | (inl e, w') => (inl e, w')
    | (inr a, w') => k a w'
    end.

(** [try: m  except Exception as e: ...]: the outcome of [m] as a value. *)
Definition try_except {A} (m : M A) : M (exn + A) :=
  fun w => let (r, w') := m w in (inr r, w').

(** A Streamlit call. *)
Definition st (e : st_event) : M unit :=
  fun w => (inr tt, {| net := net w; ui := ui w ++ [e] |}).

Declare Scope py_scope.
Delimit Scope py_scope with py.
Notation "x <- m ;; k" := (bind m (fun x => k))
  (at level 61, m at next level, right associativity) : py_scope.
Notation "m ;; k" := (bind m (fun _ => k))
  (at level 61, right associativity) : py_scope.

(** [for idx, x in enumerate(xs, start)]: the body runs on each element in
    order and the loop stops at the first exception. *)
Fixpoint for_enumerate {A} (start : Z) (xs : list A)
    (body : Z -> A -> M unit) : M unit :=
  match xs with
  | [] => ret tt
  | x :: xs' =>
      bind (body start x) (fun _ => for_enumerate (start + 1) xs' body)
  end.

(* ================================================================== *)
(** ** A decoder for a fragment of JSON

    [json.loads] is a variable of the program below.  To run the program on
    concrete replies, this module decodes the fragment of JSON made of
    [null], [true], [false], integers, strings with the two-character
    escapes, arrays and objects; any text outside the fragment is refused. *)

Module JsonFragment.

Definition is_ws (c : codepoint) : bool :=
  (c =? 32) || (c =? 9) || (c =? 10) || (c =? 13).

Fixpoint skip_ws (s : pystr) : pystr :=
  match s with
  | c :: s' => if is_ws c then skip_ws s' else s
  | [] => []
  end.

Definition is_digit (c : codepoint) : bool := (48 <=? c) && (c <=? 57).

(** Digits at the head of [s], most significant first, folded into [acc]. *)
Fixpoint digits (acc : Z) (s : pystr) : Z * pystr :=
  match s with
  | c :: s' =>
      if is_digit c then digits (10 * acc + Z.of_N (c - 48))%Z s' else (acc, s)
  | [] => (acc, [])
  end.

(** An integer literal without leading zeros; a fraction or an exponent
    after it is outside the fragment. *)
Definition number (s : pystr) : option (Z * pystr) :=
  let (neg, s1) :=
    match s with
    | 45 :: s' => (true, s')
    | _ => (false, s)
    end in
  match s1 with
  | c :: s2 =>
      if is_digit c then
        let (n, rest) := if c =? 48 then (0%Z, s2) else digits 0%Z s1 in
        match rest with
        | 46 :: _ | 101 :: _ | 69 :: _ => None
        | d :: _ => if is_digit d then None
                    else Some (if neg then (- n)%Z else n, rest)
        | [] => Some (if neg then (- n)%Z else n, rest)
        end
      else None
  | [] => None
  end.

(** The body of a string literal, after the opening quote. *)
Fixpoint string_body (s : pystr) : option (pystr * pystr) :=
  match s with
  | [] => None
  | 34 :: rest => Some ([], rest)
  | 92 :: e :: rest =>
      let unescaped :=
        match e with
        | 34 => Some 34 | 92 => Some 92 | 47 => Some 47
        | 98 => Some 8 | 102 => Some 12 | 110 => Some 10
        | 114 => Some 13 | 116 => Some 9
        | _ => None
        end in
      match unescaped, string_body rest with
      | Some c, Some (body, rest') => Some (c :: body, rest')
      | _, _ => None
      end
  | c :: rest =>
      if c <? 32 then None
      else match string_body rest with
           | Some (body, rest') => Some (c :: body, rest')
           | None => None
           end
  end.

Definition keyword (kw : pystr) (v : pyval) (s : pystr)
  : option (pyval * pystr) :=
  if startswith kw s then Some (v, skipn (List.length kw) s) else None.

Fixpoint value (fuel : nat) (s : pystr) : option (pyval * pystr) :=
  match fuel with
  | O => None
  | S fuel' =>
      match skip_ws s with
      | [] => None
      | 110 :: _ => keyword (py "null") PNone (skip_ws s)
      | 116 :: _ => keyword (py "true") (PBool true) (skip_ws s)
      | 102 :: _ => keyword (py "false") (PBool false) (skip_ws s)
      | 34 :: rest =>
          match string_body rest with
          | Some (body, rest') => Some (PStr body, rest')
          | None => None
          end
      | 91 :: rest =>
          match skip_ws rest with
          | 93 :: rest' => Some (PList [], rest')
          | _ =>
              match elements fuel' rest with
              | Some (vs, rest') => Some (PList vs, rest')
              | None => None
              end
          end
      | 123 :: rest =>
          match skip_ws rest with
          | 125 :: rest' => Some (PDict [], rest')
          | _ =>
              match members fuel' [] rest with
              | Some (d, rest') => Some (PDict d, rest')
              | None => None
              end
          end
      | _ :: _ =>
          match number (skip_ws s) with
          | Some (n, rest) => Some (PInt n, rest)
          | None => None
          end
      end
  end

with elements (fuel : nat) (s : pystr) : option (list pyval * pystr) :=
  match fuel with
  | O => None
  | S fuel' =>
      match value fuel' s with
      | Some (v, rest) =>
          match skip_ws rest with
          | 44 :: rest' =>
              match elements fuel' rest' with
              | Some (vs, rest'') => Some (v :: vs, rest'')
              | None => None
              end
          | 93 :: rest' => Some ([v], rest')
          | _ => None
          end
      | None => None
      end
  end

with members (fuel : nat) (acc : pydict) (s : pystr)
  : option (pydict * pystr) :=
  match fuel with
  | O => None
  | S fuel' =>
      match skip_ws s with
      | 34 :: rest =>
          match string_body rest with
          | Some (key, rest1) =>
              match skip_ws rest1 with
              | 58 :: rest2 =>
                  match value fuel' rest2 with
                  | Some (v, rest3) =>
                      match skip_ws rest3 with
                      | 44 :: rest4 => members fuel' (dict_set key v acc) rest4
                      | 125 :: rest4 => Some (dict_set key v acc, rest4)
                      | _ => None
                      end
                  | None => None
                  end
              | _ => None
              end
          | None => None
          end
      | _ => None
      end
  end.

(** A whole document: one value and nothing but white space after it. *)
Definition decode (s : pystr) : option pyval :=
  match value (2 * List.length s + 2) s with
  | Some (v, rest) => match skip_ws rest with [] => Some v | _ => None end
  | None => None
  end.

(** The decoder in the shape the program expects of [json.loads]: the
    decoded value, or the message of the [JSONDecodeError]. *)
Definition loads (s : pystr) : pystr + pyval :=
  match decode s with
  | Some v => inr v
  | None => inl (py "Expecting value: line 1 column 1 (char 0)")
  end.

End JsonFragment.

(* ================================================================== *)
(** ** The grammar of JSON

    What it means for a text to be syntactically valid JSON: the grammar of
    RFC 8259, as a recognizer.  [value] gives the text left after one
    value; nothing is decoded. *)

Module Rfc8259.

Definition is_ws (c : codepoint) : bool :=
  (c =? 32) || (c =? 9) || (c =? 10) || (c =? 13).

Fixpoint skip_ws (s : pystr) : pystr :=
  match s with
  | c :: s' => if is_ws c then skip_ws s' else s
  | [] => []
  end.

Definition is_digit (c : codepoint) : bool := (48 <=? c) && (c <=? 57).

Definition is_hex (c : codepoint) : bool :=
  is_digit c || ((97 <=? c) && (c <=? 102)) || ((65 <=? c) && (c <=? 70)).

Fixpoint skip_digits (s : pystr) : pystr :=
  match s with
  | c :: s' => if is_digit c then skip_digits s' else s
  | [] => []
  end.

(** [frac = "." 1*DIGIT], when present. *)
Definition frac (s : pystr) : pystr :=
  match s with
  | 46 :: d :: s' => if is_digit d then skip_digits s' else s
  | _ => s
  end.

(** [exp = ("e" / "E") ["-" / "+"] 1*DIGIT], when present. *)
Definition exp (s : pystr) : pystr :=
  match s with
  | e :: s1 =>
      if (e =? 101) || (e =? 69) then
        match s1 with
        | d :: s2 =>
            if is_digit d then skip_digits s2
            else if (d =? 43) || (d =? 45) then
              match s2 with
              | d' :: s3 => if is_digit d' then skip_digits s3 else s
              | [] => s
              end
            else s
        | [] => s
        end
      else s
  | [] => s
  end.

(** [number = ["-"] int [frac] [exp]], [int = "0" / (digit1-9 *DIGIT)]. *)
Definition number (s : pystr) : option pystr :=
  let s1 := match s with 45 :: s' => s' | _ => s end in
  match s1 with
  | c :: s2 =>
      if c =? 48 then Some (exp (frac s2))
      else if is_digit c then Some (exp (frac (skip_digits s2)))
      else None
  | [] => None
  end.

(** The characters of a string after its opening quote, up to and
    including the closing quote. *)
Fixpoint chars (s : pystr) : option pystr :=
  match s with
  | [] => None
  | c :: rest =>
      if c =? 34 then Some rest
      else if c =? 92 then
        match rest with
        | e :: rest1 =>
            if (e =? 34) || (e =? 92) || (e =? 47) || (e =? 98) || (e =? 102)
               || (e =? 110) || (e =? 114) || (e =? 116)
            then chars rest1
            else if e =? 117 then
              match rest1 with
              | h1 :: h2 :: h3 :: h4 :: rest2 =>
                  if is_hex h1 && is_hex h2 && is_hex h3 && is_hex h4
                  then chars rest2 else None
              | _ => None
              end
            else None
        | [] => None
        end
      else if c <? 32 then None
      else chars rest
  end.

Definition literal (word s : pystr) : option pystr :=
  if startswith word s then Some (skipn (List.length word) s) else None.

Fixpoint value (fuel : nat) (s : pystr) : option pystr :=
  match fuel with
  | O => None
  | S fuel' =>
      match skip_ws s with
      | [] => None
      | c :: rest =>
          if c =? 110 then literal (py "null") (c :: rest)
          else if c =? 116 then literal (py "true") (c :: rest)
          else if c =? 102 then literal (py "false") (c :: rest)
          else if c =? 34 then chars rest
          else if c =? 91 then
            match skip_ws rest with
            | 93 :: rest' => Some rest'
            | _ => elements fuel' rest
            end
          else if c =? 123 then
            match skip_ws rest with
            | 125 :: rest' => Some rest'
            | _ => members fuel' rest
            end
          else number (c :: rest)
      end
  end

with elements (fuel : nat) (s : pystr) : option pystr :=
  match fuel with
  | O => None
  | S fuel' =>
      match value fuel' s with
      | Some rest =>
          match skip_ws rest with
          | 44 :: rest' => elements fuel' rest'
          | 93 :: rest' => Some rest'
          | _ => None
          end
      | None => None
      end
  end

with members (fuel : nat) (s : pystr) : option pystr :=
  match fuel with
  | O => None
  | S fuel' =>
      match skip_ws s with
      | 34 :: rest =>
          match chars rest with
          | Some rest1 =>
              match skip_ws rest1 with
              | 58 :: rest2 =>
                  match value fuel' rest2 with
                  | Some rest3 =>
                      match skip_ws rest3 with
                      | 44 :: rest4 => members fuel' rest4
                      | 125 :: rest4 => Some rest4
                      | _ => None
                      end
                  | None => None
                  end
              | _ => None
              end
          | None => None
          end
      | _ => None
      end
  end.

(** [JSON-text = ws value ws]. *)
Definition valid (s : pystr) : bool :=
  match value (2 * List.length s + 2) s with
  | Some rest => match skip_ws rest with [] => true | _ => false end
  | None => false
  end.

End Rfc8259.

(* ================================================================== *)
(** ** The decoder with the constants of [json.loads]

    [json.loads] decodes three words that are not JSON: [NaN], [Infinity]
    and [-Infinity], to the floats of these names.  This module is the
    fragment decoder with the three constants added, tried where the
    scanner of [json] tries them: after the values of JSON, a number
    first. *)

Module JsonPython.

Import JsonFragment.

Fixpoint value (fuel : nat) (s : pystr) : option (pyval * pystr) :=
  match fuel with
  | O => None
  | S fuel' =>
      match skip_ws s with
      | [] => None
      | 110 :: _ => keyword (py "null") PNone (skip_ws s)
      | 116 :: _ => keyword (py "true") (PBool true) (skip_ws s)
      | 102 :: _ => keyword (py "false") (PBool false) (skip_ws s)
      | 34 :: rest =>
          match string_body rest with
          | Some (body, rest') => Some (PStr body, rest')
          | None => None
          end
      | 91 :: rest =>
          match skip_ws rest with
          | 93 :: rest' => Some (PList [], rest')
          | _ =>
              match elements fuel' rest with
              | Some (vs, rest') => Some (PList vs, rest')
              | None => None
              end
          end
      | 123 :: rest =>
          match skip_ws rest with
          | 125 :: rest' => Some (PDict [], rest')
          | _ =>
              match members fuel' [] rest with
              | Some (d, rest') => Some (PDict d, rest')
              | None => None
              end
          end
      | c :: _ =>
          match number (skip_ws s) with
          | Some (n, rest) => Some (PInt n, rest)
          | None =>
              if c =? 78 then
                keyword (py "NaN") (PFloat S754_nan) (skip_ws s)
              else if c =? 73 then
                keyword (py "Infinity") (PFloat (S754_infinity false))
                        (skip_ws s)
              else if c =? 45 then
                keyword (py "-Infinity") (PFloat (S754_infinity true))
                        (skip_ws s)
              else None
          end
      end
  end

with elements (fuel : nat) (s : pystr) : option (list pyval * pystr) :=
  match fuel with
  | O => None
  | S fuel' =>
      match value fuel' s with
      | Some (v, rest) =>
          match skip_ws rest with
          | 44 :: rest' =>
              match elements fuel' rest' with
              | Some (vs, rest'') => Some (v :: vs, rest'')
              | None => None
              end
          | 93 :: rest' => Some ([v], rest')
          | _ => None
          end
      | None => None
      end
  end

with members (fuel : nat) (acc : pydict) (s : pystr)
  : option (pydict * pystr) :=
  match fuel with
  | O => None
  | S fuel' =>
      match skip_ws s with
      | 34 :: rest =>
          match string_body rest with
          | Some (key, rest1) =>
              match skip_ws rest1 with
              | 58 :: rest2 =>
                  match value fuel' rest2 with
                  | Some (v, rest3) =>
                      match skip_ws rest3 with
                      | 44 :: rest4 => members fuel' (dict_set key v acc) rest4
                      | 125 :: rest4 => Some (dict_set key v acc, rest4)
                      | _ => None
                      end
                  | None => None
                  end
              | _ => None
              end
          | None => None
          end
      | _ => None
      end
  end.

Definition decode (s : pystr) : option pyval :=
  match value (2 * List.length s + 2) s with
  | Some (v, rest) => match skip_ws rest with [] => Some v | _ => None end
  | None => None
  end.

(** In the shape the program expects of [json.loads]. *)
Definition loads (s : pystr) : pystr + pyval :=
  match decode s with
  | Some v => inr v
  | None => inl (py "Expecting value: line 1 column 1 (char 0)")
  end.

End JsonPython.

(* ================================================================== *)
(** ** The program *)

Section App.

Local Open Scope py_scope.

(** [os.environ] when the script starts. *)
Variable environ : list (pystr * pystr).

(** [json.loads] on a [str]: the decoded value, or the message of the
    [json.JSONDecodeError] it raises. *)
Variable json_parse : pystr -> pystr + pyval.

(** The upstream service behind [client.chat.completions.create]: given
    the calls made so far and the present one, a completion or the
    exception the client raises.  Nothing is assumed of it. *)
Variable service : OpenAI -> list request -> request -> exn + completion.

(** [repr] of the interpreter, used where its text is not fixed by the
    program: floats and containers. *)
Variable repr : pyval -> pystr.

(** The full upper-case mapping of one non-ASCII character in the Unicode
    tables of the interpreter. *)
Variable unicode_upper : codepoint -> pystr.

(* ---------------------------------------------------------------- *)
(** *** Builtins the code calls *)

(** [os.environ.get(name)]. *)
Fixpoint os_environ_get (env : list (pystr * pystr)) (name : pystr)
  : option pystr :=
  match env with
  | [] => None
  | (k, v) :: env' => if PyStr.eqb k name then Some v else os_environ_get env' name
  end.

(** Truth value of an optional string: [None] and the empty string are
    false. *)
Definition truthy_opt (s : option pystr) : bool :=
  match s with
  | Some (_ :: _) => true
  | _ => false
  end.

(** [str.upper] on one character, then on a string: CPython maps each
    character on its own and concatenates. *)
Definition to_upper (c : codepoint) : pystr :=
  if (97 <=? c) && (c <=? 122) then [c - 32]
  else if c <? 128 then [c]
  else unicode_upper c.

Definition upper (s : pystr) : pystr := flat_map to_upper s.

(** [int(n)] for an [int]. *)
Definition py_int (n : Z) : Z := n.

(** [str(v)], which an f-string applies to an interpolated value. *)
Definition py_str (v : pyval) : pystr :=
  match v with
  | PStr s => s
  | PNone => py "None"
  | PBool true => py "True"
  | PBool false => py "False"
  | PInt n => of_Z n
  | _ => repr v
  end.

(** [xs[i]] on a list. *)
Definition list_index {A} (xs : list A) (i : nat) : M A :=
  match nth_error xs i with
  | Some x => ret x
  | None => raise (Exn IndexError (py "list index out of range"))
  end.

Definition no_attribute_get (v : pyval) : exn :=
  Exn AttributeError
      (py "'" ++ type_name v ++ py "' object has no attribute 'get'").

(** [d.get(key, default)] on a [dict]. *)
Definition dict_get (d : pydict) (key : pystr) (default : pyval) : pyval :=
  match dict_lookup key d with
  | Some x => x
  | None => default
  end.

(** [v.get(key, default)]: only a [dict] has the method. *)
Definition py_get (v : pyval) (key : pystr) (default : pyval) : M pyval :=
  match v with
  | PDict d => ret (dict_get d key default)
  | _ => raise (no_attribute_get v)
  end.

(** [iter(v)], as [enumerate] and [for] use it: the elements of a list,
    the characters of a string, the keys of a dict. *)
Definition py_iter (v : pyval) : M (list pyval) :=
  match v with
  | PList l => ret l
  | PStr s => ret (map (fun c => PStr [c]) s)
  | PDict d => ret (map (fun kv => PStr (fst kv)) d)
  | _ => raise (Exn TypeError
                    (py "'" ++ type_name v ++ py "' object is not iterable"))
  end.

(** [json.loads(content)]: the content of a completion may be [None]. *)
Definition json_loads (content : option pystr) : M pyval :=
  match content with
  | None =>
      raise (Exn TypeError
                 (py "the JSON object must be str, bytes or bytearray, not NoneType"))
  | Some s =>
      match json_parse s with
      | inl msg => raise (Exn JSONDecodeError msg)
      | inr v => ret v
      end
  end.

(* ---------------------------------------------------------------- *)
(** *** [json.dumps(obj, ensure_ascii=False, indent=2)] *)

Definition hex_digit (n : N) : codepoint :=
  if n <? 10 then 48 + n else 87 + n.

(** The replacement of one character by [encode_basestring]. *)
Definition escape_char (c : codepoint) : pystr :=
  if c =? 34 then [92; 34]
  else if c =? 92 then [92; 92]
  else if c =? 8 then [92; 98]
  else if c =? 12 then [92; 102]
  else if c =? 10 then [92; 110]
  else if c =? 13 then [92; 114]
  else if c =? 9 then [92; 116]
  else if c <? 32 then [92; 117; 48; 48; hex_digit (c / 16); hex_digit (c mod 16)]
  else [c].

Definition encode_basestring (s : pystr) : pystr :=
  dq ++ flat_map escape_char s ++ dq.

Definition floatstr (f : spec_float) : pystr :=
  match f with
  | S754_nan => py "NaN"
  | S754_infinity false => py "Infinity"
  | S754_infinity true => py "-Infinity"
  | _ => repr (PFloat f)
  end.

Definition indent : pystr := repeat_str (py " ") 2.

Definition newline_indent (level : nat) : pystr :=
  nl ++ repeat_str indent level.

(** [_iterencode(o, level)], chunks concatenated. *)
Fixpoint iterencode (level : nat) (o : pyval) : pystr :=
  match o with
  | PNone => py "null"
  | PBool true => py "true"
  | PBool false => py "false"
  | PInt n => of_Z n
  | PFloat f => floatstr f
  | PStr s => encode_basestring s
  | PList [] => py "[]"
  | PList lst =>
      py "[" ++ newline_indent (S level)
        ++ join (py "," ++ newline_indent (S level))
                (map (iterencode (S level)) lst)
        ++ newline_indent level ++ py "]"
  | PDict [] => py "{}"
  | PDict dct =>
      py "{" ++ newline_indent (S level)
        ++ join (py "," ++ newline_indent (S level))
                (map (fun kv : pystr * pyval =>
                        let (k, v) := kv in
                        encode_basestring k ++ py ": " ++ iterencode (S level) v)
                     dct)
        ++ newline_indent level ++ py "}"
  end.

Definition json_dumps (obj : pyval) : pystr := iterencode 0 obj.

(* ---------------------------------------------------------------- *)
(** *** Basic config (module level) *)

Definition OPENAI_API_KEY : option pystr :=
  os_environ_get environ (py "OPENAI_API_KEY").

Definition client : option OpenAI :=
  if truthy_opt OPENAI_API_KEY then Some {| api_key := OPENAI_API_KEY |}
  else None.

Definition key_not_set_warning : pystr :=
  py "⚠️ OPENAI_API_KEY is not set in your environment. "
  ++ py "Set it before running this app to enable AI-powered recommendations.".

Definition module_init : M unit :=
  st (St_set_page_config (py "EquiAid Navigator") (py "🌍") (py "wide")) ;;
  if negb (truthy_opt OPENAI_API_KEY) then st (St_warning key_not_set_warning)
  else ret tt.

(* ---------------------------------------------------------------- *)
(** *** AI helper *)

(** [client.chat.completions.create] with the keyword arguments [req]: one synchronous call; the
    call is recorded whether the service answers or the client raises. *)
Definition chat_completions_create (c : OpenAI) (req : request)
  : M completion :=
  fun w =>
    (service c (net w) req, {| net := net w ++ [req]; ui := ui w |}).

Definition client_not_initialized : exn :=
  Exn RuntimeError (py "OpenAI client not initialized. Set OPENAI_API_KEY.").

Definition system_message : pystr :=
  py "You are an assistant that helps underserved people in the United States "
  ++ py "discover scholarships, education awards, housing support, and food/nutrition "
  ++ py "assistance programs. You respond ONLY with strict JSON. "
  ++ py "For each item, include: name, category, description, link, why_it_matches. "
  ++ py "Categories must be one of: "
  ++ py "['scholarship','grant','housing_support','food_nutrition','workforce_program','other']. "
  ++ py "Prioritize: Indigenous/Native heritage, low-income households, first-generation "
  ++ py "students, rural families, recent immigrants, and single-parent households when relevant. "
  ++ py "All programs must be legal, legitimate, and US-based. "
  ++ py "Prefer official .gov, .edu, or recognized nonprofit URLs when possible. "
  ++ py "If you are not sure, include the best known official or widely-recognized site. "
  ++ py "Do NOT invent fake organizations or fake government programs.".

(** The text of the f-string before and after [{user_profile_str}]. *)
Definition user_message_head : pystr :=
  nl ++ py "Given this user profile:" ++ nl ++ nl.

Definition user_message_tail : pystr :=
  nl ++ nl
  ++ py "Return a JSON object with the following structure:" ++ nl ++ nl
  ++ py "{" ++ nl
  ++ py "  " ++ quoted (py "awards") ++ py ": [" ++ nl
  ++ py "    {" ++ nl
  ++ py "      " ++ quoted (py "name") ++ py ": " ++ quoted (py "string")
  ++ py "," ++ nl
  ++ py "      " ++ quoted (py "category") ++ py ": "
  ++ quoted (py "one of ['scholarship','grant','housing_support','food_nutrition','workforce_program','other']")
  ++ py "," ++ nl
  ++ py "      " ++ quoted (py "description") ++ py ": "
  ++ quoted (py "short, clear description (max 60 words)") ++ py "," ++ nl
  ++ py "      " ++ quoted (py "link") ++ py ": "
  ++ quoted (py "direct URL to learn/apply") ++ py "," ++ nl
  ++ py "      " ++ quoted (py "why_it_matches") ++ py ": "
  ++ quoted (py "1–2 sentences tying the program to the user's background") ++ nl
  ++ py "    }" ++ nl
  ++ py "  ]" ++ nl
  ++ py "}" ++ nl ++ nl
  ++ py "Include 8–15 high-quality items. Focus on relevance over quantity." ++ nl
  ++ py "If the user is in a particular state, try to include that state's programs when possible." ++ nl
  ++ py "If a well-known national program applies, include it too." ++ nl
  ++ py "    ".

Definition user_message (user_profile_str : pystr) : pystr :=
  user_message_head ++ user_profile_str ++ user_message_tail.

(** The keyword arguments of the one call to the service. *)
Definition build_request (profile : pyval) : request :=
  let user_profile_str := json_dumps profile in
  {| model := py "gpt-4.1-mini";
     response_format := [(py "type", py "json_object")];
     messages :=
       [ {| role := py "system"; content := system_message |};
         {| role := py "user"; content := user_message user_profile_str |} ];
     temperature := 0.3 |}.

Definition ai_fetch_awards (profile : pyval) : M pyval :=
  match client with
  | None => raise client_not_initialized
  | Some c =>
      response <- chat_completions_create c (build_request profile) ;;
      choice0 <- list_index (choices response) 0 ;;
      let content := message_content choice0 in
      data <- json_loads content ;;
      awards <- py_get data (py "awards") (PList []) ;;
      ret awards
  end.

(* ---------------------------------------------------------------- *)
(** *** Main UI: the form *)

(** The options of the [multiselect] and of the two [selectbox] widgets. *)
Definition background_options : list pystr :=
  [ py "Indigenous or Native heritage";
    py "Low-income household";
    py "First-generation college student";
    py "Rural household";
    py "Recent immigrant";
    py "Single-parent household";
    py "Military family";
    py "Caregiver for children or relatives" ].

Definition income_options : list pystr :=
  [ py "Prefer not to say";
    py "0–20,000";
    py "20,001–40,000";
    py "40,001–60,000";
    py "60,001–80,000";
    py "80,001–100,000";
    py "100,001+" ].

Definition education_options : list pystr :=
  [ py "High school completion";
    py "Associate degree";
    py "Bachelor's degree";
    py "Graduate studies";
    py "Vocational / technical training";
    py "Job training / workforce program";
    py "Other / not sure yet" ].

(** The arguments of [st.number_input]. *)
Record number_input : Type := { min_value : Z; max_value : Z; value : Z }.

Definition household_size_input : number_input :=
  {| min_value := 1; max_value := 20; value := 1 |}.

(** What the widgets of [profile_form] return in one script run. *)
Record form : Type := {
  background_categories : list pystr;
  income_range : pystr;
  household_size : Z;
  state : pystr;
  zip_code : pystr;
  education_goal : pystr;
  submitted : bool
}.

(** The dict literal bound to [profile] on submission. *)
Definition profile_of (f : form) : pyval :=
  PDict
    [ (py "background_categories", PList (map PStr (background_categories f)));
      (py "income_range", PStr (income_range f));
      (py "household_size", PInt (py_int (household_size f)));
      (py "state", PStr (upper (strip (state f))));
      (py "zip_code", PStr (strip (zip_code f)));
      (py "education_goal", PStr (education_goal f)) ].

(* ---------------------------------------------------------------- *)
(** *** Main UI: rendering *)

Definition intro_text : pystr :=
  py "Use this tool to discover **scholarships, grants, housing, and food support programs** "
  ++ py "you might be able to apply for. We’ll use your answers *only in this session* to ask AI "
  ++ py "for relevant programs and links — we don’t create an account or store your information.".

Definition important_text : pystr :=
  py "⚠️ **Important:** This is an AI-assisted navigator, not legal or financial advice. "
  ++ py "Always double-check details, eligibility, and deadlines on the official websites "
  ++ py "before applying.".

Definition key_not_set_error : pystr :=
  py "OPENAI_API_KEY is not set. Please set it in your environment "
  ++ py "before running the app.".

Definition no_programs_warning : pystr :=
  py "No programs were returned this time. You can try again later, "
  ++ py "or adjust your answers slightly (for example, add more background details "
  ++ py "or include your state).".

Definition closing_caption : pystr :=
  py "⚠️ This list is generated by AI based on publicly known programs. "
  ++ py "It may not include all opportunities and might not always be fully up to date. "
  ++ py "Always confirm eligibility and details on the official sites.".

(** The element [st.markdown] emits for a link. *)
Definition link_markdown (link : pyval) : st_event :=
  St_markdown (py "[Open official page](" ++ py_str link ++ py ")").

(** The body of the loop over [enumerate(awards, start=1)]. *)
Definition render_award (idx : Z) (award : pyval) : M unit :=
  st St_container ;;
  name <- py_get award (py "name") (PStr (py "(no name)")) ;;
  st (St_markdown (py "**" ++ of_Z idx ++ py ". " ++ py_str name ++ py "**")) ;;
  category <- py_get award (py "category") (PStr (py "N/A")) ;;
  st (St_caption (py "Category: " ++ py_str category)) ;;
  description <- py_get award (py "description") (PStr []) ;;
  st (St_write description) ;;
  link <- py_get award (py "link") PNone ;;
  (if truthy link then st (link_markdown link) else ret tt) ;;
  why <- py_get award (py "why_it_matches") (PStr (py "No explanation provided.")) ;;
  st (St_markdown (py "*Why this was recommended:* " ++ py_str why)) ;;
  st (St_markdown (py "---")).

(** The part of [main] after the [try] statement: the awards on the
    page. *)
Definition show_results (awards : pyval) : M unit :=
  st (St_markdown (py "---")) ;;
  st (St_subheader (py "2️⃣ Recommended programs for you")) ;;
  if negb (truthy awards) then
    st (St_warning no_programs_warning)
  else
    items <- py_iter awards ;;
    for_enumerate 1 items render_award ;;
    st (St_caption closing_caption).

Definition main (f : form) : M unit :=
  st (St_title (py "🌍 EquiAid Navigator")) ;;
  st (St_write (PStr intro_text)) ;;
  st (St_markdown important_text) ;;
  st (St_markdown (py "---")) ;;
  st (St_subheader (py "1️⃣ Tell us a bit about your situation")) ;;
  st (St_form (py "profile_form")) ;;
  if submitted f then
    if negb (truthy_opt OPENAI_API_KEY) then
      st (St_error key_not_set_error)
    else
      let profile := profile_of f in
      st (St_spinner (py "Asking AI to find relevant programs for you...")) ;;
      r <- try_except (ai_fetch_awards profile) ;;
      match r with
      | inl e => st (St_error (py "Error while contacting AI: " ++ exn_msg e))
      | inr awards => show_results awards
      end
  else ret tt.

(** One run of the script: the module level, then [main()]. *)
Definition script (f : form) : M unit :=
  module_init ;; main f.

(* ---------------------------------------------------------------- *)
(** *** Vocabulary of the properties *)

(** The elements [main] puts on the page before it looks at the form. *)
Definition page_head : list st_event :=
  [ St_title (py "🌍 EquiAid Navigator");
    St_write (PStr intro_text);
    St_markdown important_text;
    St_markdown (py "---");
    St_subheader (py "1️⃣ Tell us a bit about your situation");
    St_form (py "profile_form") ].

(** The elements that open the result part of the page. *)
Definition results_head : list st_event :=
  [ St_markdown (py "---");
    St_subheader (py "2️⃣ Recommended programs for you") ].

Definition spinner : st_event :=
  St_spinner (py "Asking AI to find relevant programs for you...").

(** A page element that is a clickable link to a program. *)
Definition is_link_element (e : st_event) : bool :=
  match e with
  | St_markdown body => startswith (py "[Open official page](") body
  | _ => false
  end.

Definition is_error_element (e : st_event) : bool :=
  match e with
  | St_error _ => true
  | _ => false
  end.

(** No white space at either end of a string. *)
Definition trimmed (s : pystr) : Prop :=
  (forall c, hd_error s = Some c -> isspace c = false)
  /\ (forall c, hd_error (rev s) = Some c -> isspace c = false).

(** The elements one award dict puts on the page. *)
Definition award_elements (idx : Z) (d : pydict) : list st_event :=
  [ St_container;
    St_markdown (py "**" ++ of_Z idx ++ py ". "
                 ++ py_str (dict_get d (py "name") (PStr (py "(no name)")))
                 ++ py "**");
    St_caption (py "Category: "
                ++ py_str (dict_get d (py "category") (PStr (py "N/A"))));
    St_write (dict_get d (py "description") (PStr [])) ]
  ++ (if truthy (dict_get d (py "link") PNone)
      then [link_markdown (dict_get d (py "link") PNone)]
      else [])
  ++ [ St_markdown (py "*Why this was recommended:* "
                    ++ py_str (dict_get d (py "why_it_matches")
                                        (PStr (py "No explanation provided."))));
       St_markdown (py "---") ].

(** The elements a list of award dicts puts on the page, numbered from
    [start]. *)
Fixpoint awards_elements (start : Z) (ds : list pydict) : list st_event :=
  match ds with
  | [] => []
  | d :: ds' => award_elements start d ++ awards_elements (start + 1) ds'
  end.

(** What the claims need of the interpreter's upper-case table: a character
    that is not white space has a non-empty upper-case form free of white
    space.  It holds of the Unicode tables. *)
Definition upper_keeps_nonspace : Prop :=
  forall c, 128 <= c -> isspace c = false ->
            unicode_upper c <> [] /\ Forall (fun x => isspace x = false) (unicode_upper c).

(** [v[key]] for a dict [v]. *)
Definition py_item (v : pyval) (key : pystr) : option pyval :=
  match v with
  | PDict d => dict_lookup key d
  | _ => None
  end.

(** What the code makes of the service's answer once the call is made. *)
Definition reply_outcome (r : exn + completion) : exn + pyval :=
  match r with
  | inl e => inl e
  | inr response =>
      match choices response with
      | [] => inl (Exn IndexError (py "list index out of range"))
      | choice0 :: _ =>
          match message_content choice0 with
          | None =>
              inl (Exn TypeError
                       (py "the JSON object must be str, bytes or bytearray, not NoneType"))
          | Some text =>
              match json_parse text with
              | inl msg => inl (Exn JSONDecodeError msg)
              | inr (PDict d) => inr (dict_get d (py "awards") (PList []))
              | inr data => inl (no_attribute_get data)
              end
          end
      end
  end.

(* ---------------------------------------------------------------- *)
(** *** Sample inputs

    Concrete environments, services and forms on which the program can be
    run from end to end with the decoder [JsonFragment.loads]. *)

(** An environment with a key, and one without. *)
Definition env_with_key : list (pystr * pystr) :=
  [(py "HOME", py "/home/app"); (py "OPENAI_API_KEY", py "sk-test")].

Definition env_without_key : list (pystr * pystr) :=
  [(py "HOME", py "/home/app")].

Definition sample_client : OpenAI := {| api_key := Some (py "sk-test") |}.

(** A stub upstream whose completion has one choice holding [text]. *)
Definition stub_service (text : pystr)
  : OpenAI -> list request -> request -> exn + completion :=
  fun _ _ _ => inr {| choices := [ {| message_content := Some text |} ] |}.

(** A stand-in for [repr] where no float or container is formatted. *)
Definition stub_repr (v : pyval) : pystr := py "<" ++ type_name v ++ py ">".

(** An upper-case table that leaves non-ASCII characters alone. *)
Definition ascii_only_upper (c : codepoint) : pystr := [c].

(** The form values of the round-trip example. *)
Definition sample_form : form :=
  {| background_categories := [py "Rural household"];
     income_range := py "20,001–40,000";
     household_size := 4;
     state := py "tx";
     zip_code := [];
     education_goal := py "Associate degree";
     submitted := true |}.

(** The same form with white space around the two text inputs. *)
Definition padded_form : form :=
  {| background_categories := [py "Rural household"];
     income_range := py "20,001–40,000";
     household_size := 4;
     state := py " tx ";
     zip_code := py " 78701 ";
     education_goal := py "Associate degree";
     submitted := true |}.

(** Replies of the stub upstream: an empty array, an item with a name only,
    text that is not JSON, and a number where the array should be. *)
Definition reply_empty : pystr :=
  py "{" ++ quoted (py "awards") ++ py ": []}".

Definition reply_name_only : pystr :=
  py "{" ++ quoted (py "awards") ++ py ": [{" ++ quoted (py "name") ++ py ": "
  ++ quoted (py "X") ++ py "}]}".

Definition reply_not_json : pystr := py "Sorry, I cannot help with that.".

Definition reply_number : pystr :=
  py "{" ++ quoted (py "awards") ++ py ": 5}".

(** A stub upstream with a fixed outcome, whatever the request. *)
Definition const_service (r : exn + completion)
  : OpenAI -> list request -> request -> exn + completion :=
  fun _ _ _ => r.

(** The form of the example with nothing but white space in the two text
    inputs. *)
Definition blank_form : form :=
  {| background_categories := [py "Rural household"];
     income_range := py "20,001–40,000";
     household_size := 4;
     state := py "   ";
     zip_code := [9; 32];
     education_goal := py "Associate degree";
     submitted := true |}.

(** The form of the example before the button is pressed. *)
Definition idle_form : form :=
  {| background_categories := [py "Rural household"];
     income_range := py "20,001–40,000";
     household_size := 4;
     state := py "tx";
     zip_code := [];
     education_goal := py "Associate degree";
     submitted := false |}.

(** The element of [st.set_page_config]. *)
Definition page_config : st_event :=
  St_set_page_config (py "EquiAid Navigator") (py "🌍") (py "wide").

(** [str.upper] on one ASCII character. *)
Definition ascii_upper (c : codepoint) : codepoint :=
  if (97 <=? c) && (c <=? 122) then c - 32 else c.

(** A string of ASCII characters only ([str.isascii]). *)
Definition isascii (s : pystr) : bool := forallb (fun c => c <? 128) s.

(** A string of white space only, the empty one included. *)
Definition isblank (s : pystr) : bool := forallb isspace s.

(** The value of a hexadecimal digit. *)
Definition hex_value (c : codepoint) : option N :=
  if (48 <=? c) && (c <=? 57) then Some (c - 48)
  else if (97 <=? c) && (c <=? 102) then Some (c - 87)
  else if (65 <=? c) && (c <=? 70) then Some (c - 55)
  else None.

(** Reading back a JSON string literal after its opening quote: the body
    up to the closing quote, with the escapes undone, and the text after
    the quote. *)
Fixpoint scanstring (s : pystr) : option (pystr * pystr) :=
  match s with
  | [] => None
  | c :: rest =>
      if c =? 34 then Some ([], rest)
      else if c =? 92 then
        match rest with
        | [] => None
        | e :: rest1 =>
            if e =? 117 then
              match rest1 with
              | h1 :: h2 :: h3 :: h4 :: rest2 =>
                  match hex_value h1, hex_value h2, hex_value h3,
                        hex_value h4, scanstring rest2 with
                  | Some a, Some b, Some c3, Some d, Some (body, r) =>
                      Some ((((a * 16 + b) * 16 + c3) * 16 + d) :: body, r)
                  | _, _, _, _, _ => None
                  end
              | _ => None
              end
            else
              let plain :=
                if e =? 34 then Some 34
                else if e =? 92 then Some 92
                else if e =? 47 then Some 47
                else if e =? 98 then Some 8
                else if e =? 102 then Some 12
                else if e =? 110 then Some 10
                else if e =? 114 then Some 13
                else if e =? 116 then Some 9
                else None in
              match plain, scanstring rest1 with
              | Some ch, Some (body, r) => Some (ch :: body, r)
              | _, _ => None
              end
        end
      else if c <? 32 then None
      else
        match scanstring rest with
        | Some (body, r) => Some (c :: body, r)
        | None => None
        end
  end.

(** The characters of a decimal numeral. *)
Fixpoint uint_codes (d : Decimal.uint) : pystr :=
  match d with
  | Decimal.Nil => []
  | Decimal.D0 d => 48 :: uint_codes d
  | Decimal.D1 d => 49 :: uint_codes d
  | Decimal.D2 d => 50 :: uint_codes d
  | Decimal.D3 d => 51 :: uint_codes d
  | Decimal.D4 d => 52 :: uint_codes d
  | Decimal.D5 d => 53 :: uint_codes d
  | Decimal.D6 d => 54 :: uint_codes d
  | Decimal.D7 d => 55 :: uint_codes d
  | Decimal.D8 d => 56 :: uint_codes d
  | Decimal.D9 d => 57 :: uint_codes d
  end.

(** The form of the example with the two text inputs already normalized. *)
Definition normalized_form : form :=
  {| background_categories := [py "Rural household"];
     income_range := py "20,001–40,000";
     household_size := 4;
     state := py "TX";
     zip_code := py "78701";
     education_goal := py "Associate degree";
     submitted := true |}.

(** An environment in which the key is set to the empty string. *)
Definition env_with_empty_key : list (pystr * pystr) :=
  [(py "HOME", py "/home/app"); (py "OPENAI_API_KEY", [])].

(** What the client raises when the service cannot be reached. *)
Definition connection_error : exn := Exn APIError (py "Connection error.").

(** A reply that is valid JSON but an array, not an object. *)
Definition reply_array : pystr := py "[1, 2]".

(** An item with all five fields, its category outside the six allowed
    values. *)
Definition sample_award : pydict :=
  [ (py "name", PStr (py "Pell Grant"));
    (py "category", PStr (py "federal aid"));
    (py "description", PStr (py "Need-based grant for undergraduates."));
    (py "link", PStr (py "https://studentaid.gov/"));
    (py "why_it_matches", PStr (py "Household income is in range.")) ].

(** A reply that is not JSON and that [json.loads] decodes all the same. *)
Definition reply_nan : pystr :=
  py "{" ++ quoted (py "x") ++ py ": NaN}".

(* ================================================================ *)
(** ** Properties *)

(** *** Strings *)

Lemma eqb_eq (a b : pystr) : PyStr.eqb a b = true <-> a = b.
Proof.
  revert b; induction a as [|x a IH]; intros [|y b]; simpl;
    try (split; [discriminate | congruence]); try tauto.
  rewrite andb_true_iff, N.eqb_eq, IH.
  split; [intros [-> ->]; reflexivity | intros E; inversion E; auto].
Qed.

Lemma eqb_refl (a : pystr) : PyStr.eqb a a = true.
Proof. apply eqb_eq; reflexivity. Qed.

Lemma startswith_app (p s : pystr) : startswith p (p ++ s) = true.
Proof.
  induction p as [|c p IH]; simpl; [reflexivity|].
  rewrite N.eqb_refl, IH; reflexivity.
Qed.

Lemma lstrip_head (s : pystr) (c : codepoint) :
  hd_error (lstrip s) = Some c -> isspace c = false.
Proof.
  induction s as [|x s IH]; simpl; [discriminate|].
  destruct (isspace x) eqn:Hx; [exact IH|].
  simpl. intros E; inversion E; subst; exact Hx.
Qed.

Lemma lstrip_suffix (s : pystr) : exists ws, s = ws ++ lstrip s.
Proof.
  induction s as [|x s [ws IH]]; simpl.
  - exists []; reflexivity.
  - destruct (isspace x).
    + exists (x :: ws). simpl. f_equal. exact IH.
    + exists []. reflexivity.
Qed.

Lemma rstrip_prefix (s : pystr) : exists ws, s = rstrip s ++ ws.
Proof.
  unfold rstrip. destruct (lstrip_suffix (rev s)) as [ws E].
  exists (rev ws).
  rewrite <- rev_app_distr, <- E, rev_involutive. reflexivity.
Qed.

(** [strip] leaves no white space at either end. *)
Lemma strip_trimmed (s : pystr) : trimmed (strip s).
Proof.
  unfold trimmed, strip. split; intros c Hc.
  - destruct (rstrip_prefix (lstrip s)) as [ws E].
    apply (lstrip_head s). rewrite E.
    destruct (rstrip (lstrip s)); [discriminate|exact Hc].
  - unfold rstrip in Hc. rewrite rev_involutive in Hc.
    exact (lstrip_head _ Hc).
Qed.

(** [strip] changes nothing in a string that has nothing to strip. *)
Lemma strip_of_trimmed (s : pystr) : trimmed s -> strip s = s.
Proof.
  intros [Hh Hl].
  assert (L : forall t, (forall c, hd_error t = Some c -> isspace c = false) ->
                        lstrip t = t).
  { intros [|x t] H; simpl; [reflexivity|].
    rewrite (H x eq_refl). reflexivity. }
  unfold strip, rstrip. rewrite (L s Hh), (L (rev s) Hl).
  apply rev_involutive.
Qed.

Lemma ascii_upper_nonspace (c : codepoint) :
  97 <= c <= 122 -> isspace (c - 32) = false.
Proof.
  intros H. unfold isspace.
  repeat (apply orb_false_intro);
    try (apply andb_false_iff); try (apply N.eqb_neq; lia).
  - right. apply N.leb_gt. lia.
  - right. apply N.leb_gt. lia.
  - left. apply N.leb_gt. lia.
Qed.

Lemma to_upper_nonspace (c : codepoint) :
  upper_keeps_nonspace ->
  isspace c = false ->
  to_upper c <> [] /\ Forall (fun x => isspace x = false) (to_upper c).
Proof.
  intros Hup Hc. unfold to_upper.
  destruct ((97 <=? c) && (c <=? 122)) eqn:Hlow.
  - apply andb_true_iff in Hlow. destruct Hlow as [H1 H2].
    apply N.leb_le in H1, H2.
    split; [discriminate|]. constructor; [|constructor].
    apply ascii_upper_nonspace. lia.
  - destruct (c <? 128) eqn:Hascii.
    + split; [discriminate|]. constructor; [exact Hc|constructor].
    + apply Hup; [apply N.ltb_ge; exact Hascii | exact Hc].
Qed.

(** [upper] keeps a trimmed string trimmed. *)
Lemma upper_trimmed (s : pystr) :
  upper_keeps_nonspace -> trimmed s -> trimmed (upper s).
Proof.
  intros Hup [Hh Hl]. unfold upper. split; intros c Hc.
  - destruct s as [|x s]; [discriminate|].
    destruct (to_upper_nonspace x Hup (Hh x eq_refl)) as [Hne Hall].
    simpl in Hc. destruct (to_upper x) as [|y ys]; [congruence|].
    simpl in Hc. inversion Hc; subst. inversion Hall; assumption.
  - destruct (rev s) as [|x r] eqn:E.
    + assert (s = []) by (rewrite <- (rev_involutive s), E; reflexivity).
      subst. discriminate.
    + assert (Hs : s = rev r ++ [x])
        by (rewrite <- (rev_involutive s), E; reflexivity).
      destruct (to_upper_nonspace x Hup (Hl x eq_refl)) as [Hne Hall].
      rewrite Hs, flat_map_app, rev_app_distr in Hc.
      simpl flat_map in Hc. rewrite app_nil_r in Hc.
      destruct (rev (to_upper x)) as [|y ys] eqn:Er.
      * exfalso. apply Hne. rewrite <- (rev_involutive (to_upper x)), Er.
        reflexivity.
      * simpl in Hc. inversion Hc; subst.
        rewrite Forall_forall in Hall. apply Hall.
        apply in_rev. rewrite Er. left; reflexivity.
Qed.

(** *** The fetcher, step by step *)

(** With a client, [ai_fetch_awards] makes the call, records it, and
    post-processes the answer without touching the world again. *)
Lemma ai_fetch_awards_run (c : OpenAI) (profile : pyval) (w : world) :
  client = Some c ->
  ai_fetch_awards profile w
  = (reply_outcome (service c (net w) (build_request profile)),
     {| net := net w ++ [build_request profile]; ui := ui w |}).
Proof.
  intros Hc. unfold ai_fetch_awards. rewrite Hc.
  unfold bind at 1. unfold chat_completions_create.
  destruct (service c (net w) (build_request profile)) as [e|response];
    [reflexivity|].
  unfold reply_outcome, bind, list_index, json_loads.
  destruct (choices response) as [|choice0 rest]; [reflexivity|].
  cbn [nth_error ret].
  destruct (message_content choice0) as [text|]; [|reflexivity].
  destruct (json_parse text) as [msg|data]; [reflexivity|].
  destruct data; reflexivity.
Qed.

Lemma client_truthy (c : OpenAI) :
  client = Some c -> truthy_opt OPENAI_API_KEY = true.
Proof.
  unfold client. destruct (truthy_opt OPENAI_API_KEY); [reflexivity|discriminate].
Qed.

(** *** The page, step by step *)

(** With a key, a submission runs the fetcher once, after the head of the
    page and the spinner, and the outcome decides the rest of the page. *)
Lemma main_submitted (c : OpenAI) (f : form) (w : world) :
  client = Some c ->
  submitted f = true ->
  main f w
  = let r := reply_outcome (service c (net w) (build_request (profile_of f))) in
    let w' := {| net := net w ++ [build_request (profile_of f)];
                 ui := ui w ++ page_head ++ [spinner] |} in
    match r with
    | inl e => st (St_error (py "Error while contacting AI: " ++ exn_msg e)) w'
    | inr awards => show_results awards w'
    end.
Proof.
  intros Hc Hs. unfold main. rewrite Hs, (client_truthy Hc).
  cbn [negb]. unfold bind at 1 2 3 4 5 6 7, st at 1 2 3 4 5 6 7.
  cbn [net ui]. rewrite <- !app_assoc. cbn [app].
  unfold bind, try_except. rewrite (ai_fetch_awards_run _ _ Hc).
  cbn [net ui].
  destruct (reply_outcome _); reflexivity.
Qed.

(** On a dict, the loop body cannot fail: it puts [award_elements] on the
    page and makes no call. *)
Lemma render_award_run (idx : Z) (d : pydict) (w : world) :
  render_award idx (PDict d) w
  = (inr tt, {| net := net w; ui := ui w ++ award_elements idx d |}).
Proof.
  unfold render_award, award_elements, bind, st, py_get, ret.
  cbn [net ui].
  destruct (truthy (dict_get d (py "link") PNone));
    cbn [net ui app]; rewrite <- !app_assoc; reflexivity.
Qed.

(** On anything but a dict, the loop body raises at the first [.get],
    after the container is opened. *)
Lemma render_award_not_dict (idx : Z) (award : pyval) (w : world) :
  (forall d, award <> PDict d) ->
  render_award idx award w
  = (inl (no_attribute_get award),
     {| net := net w; ui := ui w ++ [St_container] |}).
Proof.
  intros Hnd. unfold render_award, bind, st, py_get.
  destruct award; try reflexivity.
  exfalso; eapply Hnd; reflexivity.
Qed.

Lemma for_enumerate_dicts (start : Z) (ds : list pydict) (w : world) :
  for_enumerate start (map PDict ds) render_award w
  = (inr tt, {| net := net w; ui := ui w ++ awards_elements start ds |}).
Proof.
  revert start w. induction ds as [|d ds IH]; intros start w.
  - simpl. unfold ret. rewrite app_nil_r. destruct w; reflexivity.
  - simpl. unfold bind. rewrite render_award_run, IH.
    cbn [net ui]. rewrite <- app_assoc. reflexivity.
Qed.

(** A falsy result: the warning under the results head, and nothing else. *)
Lemma show_results_falsy (awards : pyval) (w : world) :
  truthy awards = false ->
  show_results awards w
  = (inr tt, {| net := net w;
                ui := ui w ++ results_head ++ [St_warning no_programs_warning] |}).
Proof.
  intros Hf. unfold show_results, bind, st. rewrite Hf.
  cbn [negb net ui]. rewrite <- !app_assoc. reflexivity.
Qed.

(** A non-empty list of dicts: every item is rendered, then the caption. *)
Lemma show_results_dicts (d : pydict) (ds : list pydict) (w : world) :
  show_results (PList (map PDict (d :: ds))) w
  = (inr tt, {| net := net w;
                ui := ui w ++ results_head ++ awards_elements 1 (d :: ds)
                           ++ [St_caption closing_caption] |}).
Proof.
  unfold show_results, bind at 1 2, st at 1 2.
  cbn [truthy map negb net ui].
  unfold bind at 1, py_iter, ret at 1.
  unfold bind. rewrite (for_enumerate_dicts 1 (d :: ds)).
  unfold st. cbn [net ui]. rewrite <- !app_assoc. reflexivity.
Qed.

Lemma dict_lookup_remove (key k : pystr) (d : pydict) :
  dict_lookup k (dict_remove key d)
  = if PyStr.eqb key k then None else dict_lookup k d.
Proof.
  induction d as [|[k0 v0] d IH]; simpl.
  - destruct (PyStr.eqb key k); reflexivity.
  - destruct (PyStr.eqb k0 key) eqn:E0.
    + apply eqb_eq in E0. subst k0. rewrite IH.
      destruct (PyStr.eqb key k); reflexivity.
    + simpl. rewrite IH.
      destruct (PyStr.eqb k0 k) eqn:E1; [|reflexivity].
      apply eqb_eq in E1. subst k0.
      destruct (PyStr.eqb key k) eqn:E2; [|reflexivity].
      apply eqb_eq in E2. subst k. rewrite eqb_refl in E0. discriminate.
Qed.

(** Rendering makes no call to the service, whatever the awards are. *)
Lemma render_award_net (idx : Z) (award : pyval) (w : world) :
  net (snd (render_award idx award w)) = net w.
Proof.
  destruct award;
    try (rewrite render_award_not_dict by (intros ? E; discriminate E);
         reflexivity).
  rewrite render_award_run. reflexivity.
Qed.

Lemma for_enumerate_net (items : list pyval) (start : Z) (w : world) :
  net (snd (for_enumerate start items render_award w)) = net w.
Proof.
  revert start w. induction items as [|x items IH]; intros start w;
    [reflexivity|].
  simpl. unfold bind.
  pose proof (render_award_net start x w) as Hx.
  destruct (render_award start x w) as [[e|[]] w1]; cbn [snd] in *.
  - exact Hx.
  - rewrite IH. exact Hx.
Qed.

Lemma show_results_net (awards : pyval) (w : world) :
  net (snd (show_results awards w)) = net w.
Proof.
  unfold show_results, bind at 1 2, st at 1 2. cbn [net ui].
  destruct (negb (truthy awards)); [reflexivity|].
  unfold bind at 1.
  set (w0 := {| net := net w; ui := _ |}).
  assert (Hit : forall items : list pyval,
             net (snd (bind (for_enumerate 1 items render_award)
                            (fun _ => st (St_caption closing_caption)) w0))
             = net w).
  { intros items. unfold bind.
    pose proof (for_enumerate_net items 1 w0) as Hl.
    destruct (for_enumerate 1 items render_award w0) as [[e|[]] w1];
      exact Hl. }
  destruct awards; try reflexivity; unfold py_iter, ret at 1; apply Hit.
Qed.

(* ---------------------------------------------------------------- *)
(** *** Claims about the credential and the call *)

(** C1.  When no service credential is configured (the environment gives no
    key, or an empty one), there is no client, [ai_fetch_awards] raises its
    [RuntimeError] at once and leaves the world as it found it: no request
    is built or recorded.  A submission stops at the guard of [main] with
    the configuration error on the page, returns normally, and makes no
    call either. *)
Theorem no_credential_no_call (profile : pyval) (f : form) (w : world) :
  truthy_opt OPENAI_API_KEY = false ->
  client = None
  /\ ai_fetch_awards profile w = (inl client_not_initialized, w)
  /\ (submitted f = true ->
      main f w
      = (inr tt, {| net := net w;
                    ui := ui w ++ page_head ++ [St_error key_not_set_error] |})).
Proof.
  intros Hkey.
  assert (Hc : client = None) by (unfold client; rewrite Hkey; reflexivity).
  split; [exact Hc|]. split.
  - unfold ai_fetch_awards. rewrite Hc. reflexivity.
  - intros Hs. unfold main. rewrite Hs, Hkey.
    cbn [negb]. unfold bind, st. cbn [net ui].
    rewrite <- !app_assoc. reflexivity.
Qed.

(** C7.  With a client, one invocation of [ai_fetch_awards] adds exactly one
    request to the trace of calls, whatever the service answers; that request
    asks for the response format [json_object] and the temperature 0.3, and
    the page is not touched.  The call is synchronous: its answer is the
    value the rest of the function works on. *)
Theorem one_call_json_object_low_temperature
    (c : OpenAI) (profile : pyval) (w : world) :
  client = Some c ->
  net (snd (ai_fetch_awards profile w)) = net w ++ [build_request profile]
  /\ ui (snd (ai_fetch_awards profile w)) = ui w
  /\ fst (ai_fetch_awards profile w)
     = reply_outcome (service c (net w) (build_request profile))
  /\ response_format (build_request profile) = [(py "type", py "json_object")]
  /\ temperature (build_request profile) = 0.3%Q
  /\ model (build_request profile) = py "gpt-4.1-mini".
Proof.
  intros Hc.
  rewrite (ai_fetch_awards_run profile w Hc). cbn [fst snd net ui].
  repeat split; reflexivity.
Qed.

(** *** Claims about the reply *)

(** C3 (as the code has it).  When [json.loads] rejects the text of the
    reply (it raises [JSONDecodeError]), [ai_fetch_awards] raises that
    error; the [try] statement of [main] catches it, the page shows the
    contact error with the message and no result, and [main] returns
    normally.  What is rejected is decided by [json.loads], which decodes
    the words [NaN], [Infinity] and [-Infinity] although they are not
    JSON. *)
Theorem invalid_json_is_reported
    (c : OpenAI) (f : form) (w : world)
    (response : completion) (choice0 : choice) (rest : list choice)
    (text msg : pystr) :
  client = Some c ->
  submitted f = true ->
  service c (net w) (build_request (profile_of f)) = inr response ->
  choices response = choice0 :: rest ->
  message_content choice0 = Some text ->
  json_parse text = inl msg ->
  fst (ai_fetch_awards (profile_of f) w) = inl (Exn JSONDecodeError msg)
  /\ fst (main f w) = inr tt
  /\ ui (snd (main f w))
     = ui w ++ page_head
         ++ [spinner; St_error (py "Error while contacting AI: " ++ msg)].
Proof.
  intros Hc Hs Hsvc Hch Hmc Hparse.
  assert (Hout : reply_outcome (service c (net w) (build_request (profile_of f)))
                 = inl (Exn JSONDecodeError msg)).
  { rewrite Hsvc. unfold reply_outcome. rewrite Hch, Hmc, Hparse. reflexivity. }
  split.
  - rewrite (ai_fetch_awards_run _ w Hc). cbn [fst]. exact Hout.
  - rewrite (main_submitted f w Hc Hs). cbv zeta. rewrite Hout.
    unfold st. cbn [fst snd net ui exn_msg].
    rewrite <- !app_assoc. split; reflexivity.
Qed.

(** C6.  When the reply decodes to an object without the key [awards], or
    with an empty array under it, [ai_fetch_awards] returns the empty list
    and raises nothing; [main] then shows the warning that invites another
    try, no error element, and returns normally. *)
Theorem absent_or_empty_awards_is_soft
    (c : OpenAI) (f : form) (w : world)
    (response : completion) (choice0 : choice) (rest : list choice)
    (text : pystr) (d : pydict) :
  client = Some c ->
  submitted f = true ->
  service c (net w) (build_request (profile_of f)) = inr response ->
  choices response = choice0 :: rest ->
  message_content choice0 = Some text ->
  json_parse text = inr (PDict d) ->
  dict_lookup (py "awards") d = None
  \/ dict_lookup (py "awards") d = Some (PList []) ->
  fst (ai_fetch_awards (profile_of f) w) = inr (PList [])
  /\ fst (main f w) = inr tt
  /\ ui (snd (main f w))
     = ui w ++ page_head ++ [spinner] ++ results_head
         ++ [St_warning no_programs_warning]
  /\ existsb is_error_element
       (page_head ++ [spinner] ++ results_head ++ [St_warning no_programs_warning])
     = false.
Proof.
  intros Hc Hs Hsvc Hch Hmc Hparse Hawards.
  assert (Hout : reply_outcome (service c (net w) (build_request (profile_of f)))
                 = inr (PList [])).
  { rewrite Hsvc. unfold reply_outcome. rewrite Hch, Hmc, Hparse.
    unfold dict_get. destruct Hawards as [-> | ->]; reflexivity. }
  split; [|split; [|split]].
  - rewrite (ai_fetch_awards_run _ w Hc). cbn [fst]. exact Hout.
  - rewrite (main_submitted f w Hc Hs). cbv zeta. rewrite Hout.
    rewrite show_results_falsy by reflexivity. reflexivity.
  - rewrite (main_submitted f w Hc Hs). cbv zeta. rewrite Hout.
    rewrite show_results_falsy by reflexivity. cbn [snd ui].
    rewrite <- !app_assoc. reflexivity.
  - reflexivity.
Qed.

(** Whatever stands under [awards] in the decoded object is what the caller
    receives: a list when it is a list, and any other value just the same. *)
Lemma awards_value_returned_as_is
    (c : OpenAI) (profile : pyval) (w : world)
    (response : completion) (choice0 : choice) (rest : list choice)
    (text : pystr) (d : pydict) (v : pyval) :
  client = Some c ->
  service c (net w) (build_request profile) = inr response ->
  choices response = choice0 :: rest ->
  message_content choice0 = Some text ->
  json_parse text = inr (PDict d) ->
  dict_lookup (py "awards") d = Some v ->
  fst (ai_fetch_awards profile w) = inr v.
Proof.
  intros Hc Hsvc Hch Hmc Hparse Hv.
  rewrite (ai_fetch_awards_run profile w Hc). cbn [fst].
  rewrite Hsvc. unfold reply_outcome. rewrite Hch, Hmc, Hparse.
  unfold dict_get. rewrite Hv. reflexivity.
Qed.

(** A value that is truthy and not iterable leaves [main] as an exception:
    the loop over the awards stands after the [try] statement. *)
Lemma show_results_not_iterable (awards : pyval) (w : world) :
  truthy awards = true ->
  (match awards with PList _ | PStr _ | PDict _ => False | _ => True end) ->
  fst (show_results awards w)
  = inl (Exn TypeError (py "'" ++ type_name awards ++ py "' object is not iterable")).
Proof.
  intros Ht Hni. unfold show_results, bind, st. rewrite Ht. cbn [negb].
  destruct awards; try contradiction; reflexivity.
Qed.

(* ---------------------------------------------------------------- *)
(** *** Claims about rendering *)

(** The only link element among the elements of an award is the one the
    [if link:] branch emits. *)
Lemma award_elements_link (idx : Z) (d : pydict) :
  existsb is_link_element (award_elements idx d)
  = truthy (dict_get d (py "link") PNone).
Proof.
  unfold award_elements.
  destruct (truthy (dict_get d (py "link") PNone)); [|reflexivity].
  rewrite !existsb_app. cbn [existsb is_link_element link_markdown].
  rewrite startswith_app. reflexivity.
Qed.


(** C9.  The loop body puts a link element on the page exactly when the
    award has a [link] whose value is truthy; an award whose [link] is the
    empty string is rendered as the same award without the key. *)
Theorem link_rendered_iff_truthy (idx : Z) (d : pydict) (w : world) :
  exists new,
    render_award idx (PDict d) w
    = (inr tt, {| net := net w; ui := ui w ++ new |})
    /\ (existsb is_link_element new = true <->
        exists link,
          dict_lookup (py "link") d = Some link /\ truthy link = true)
    /\ (dict_lookup (py "link") d = Some (PStr []) ->
        render_award idx (PDict d) w
        = render_award idx (PDict (dict_remove (py "link") d)) w).
Proof.
  exists (award_elements idx d).
  split; [apply render_award_run|]. split.
  - rewrite award_elements_link. unfold dict_get. split.
    + destruct (dict_lookup (py "link") d) as [link|]; [|discriminate].
      intros Ht. exists link. split; [reflexivity|exact Ht].
    + intros [link [-> Ht]]. exact Ht.
  - intros Hempty. rewrite !render_award_run. do 2 f_equal.
    unfold award_elements, dict_get.
    rewrite !dict_lookup_remove, Hempty.
    reflexivity.
Qed.

(* ---------------------------------------------------------------- *)
(** *** Claims about the profile *)

(** The text [json.dumps] gives for the profile: six members in the order of
    the dict literal, two spaces of indentation. *)
Lemma json_dumps_profile (f : form) :
  json_dumps (profile_of f)
  = py "{" ++ newline_indent 1
    ++ encode_basestring (py "background_categories") ++ py ": "
    ++ iterencode 1 (PList (map PStr (background_categories f)))
    ++ py "," ++ newline_indent 1
    ++ encode_basestring (py "income_range") ++ py ": "
    ++ encode_basestring (income_range f)
    ++ py "," ++ newline_indent 1
    ++ encode_basestring (py "household_size") ++ py ": "
    ++ of_Z (household_size f)
    ++ py "," ++ newline_indent 1
    ++ encode_basestring (py "state") ++ py ": "
    ++ encode_basestring (upper (strip (state f)))
    ++ py "," ++ newline_indent 1
    ++ encode_basestring (py "zip_code") ++ py ": "
    ++ encode_basestring (strip (zip_code f))
    ++ py "," ++ newline_indent 1
    ++ encode_basestring (py "education_goal") ++ py ": "
    ++ encode_basestring (education_goal f)
    ++ newline_indent 0 ++ py "}".
Proof.
  unfold json_dumps, profile_of, py_int.
  cbn [iterencode map join].
  rewrite <- !app_assoc. reflexivity.
Qed.

(** C5 (as the code has it).  On a submission with a client, the one request
    [main] issues is [build_request] of the profile: a function of the form
    values alone, whatever the world and the service.  Its user message
    embeds the [json.dumps] text of the profile, and the profile holds the
    form values unchanged, except that [state] is stripped and upper-cased
    and [zip_code] is stripped; where there is nothing to strip, the ZIP
    code is unchanged and the state is only upper-cased. *)
Theorem profile_payload (c : OpenAI) (f : form) (w : world) :
  client = Some c ->
  submitted f = true ->
  net (snd (main f w)) = net w ++ [build_request (profile_of f)]
  /\ map content (messages (build_request (profile_of f)))
     = [system_message;
        user_message_head ++ json_dumps (profile_of f) ++ user_message_tail]
  /\ py_item (profile_of f) (py "background_categories")
     = Some (PList (map PStr (background_categories f)))
  /\ py_item (profile_of f) (py "income_range") = Some (PStr (income_range f))
  /\ py_item (profile_of f) (py "household_size")
     = Some (PInt (household_size f))
  /\ py_item (profile_of f) (py "state")
     = Some (PStr (upper (strip (state f))))
  /\ py_item (profile_of f) (py "zip_code") = Some (PStr (strip (zip_code f)))
  /\ py_item (profile_of f) (py "education_goal")
     = Some (PStr (education_goal f))
  /\ (trimmed (zip_code f) -> strip (zip_code f) = zip_code f)
  /\ (trimmed (state f) -> upper (strip (state f)) = upper (state f)).
Proof.
  intros Hc Hs. split.
  - rewrite (main_submitted f w Hc Hs). cbv zeta.
    destruct (reply_outcome _) as [e|awards];
      [reflexivity | apply show_results_net].
  - do 7 (split; [reflexivity|]). split.
    + apply strip_of_trimmed.
    + intros Ht. rewrite (strip_of_trimmed Ht). reflexivity.
Qed.

(* ================================================================ *)
(** ** Further properties of the program *)

(** *** The script as a whole *)

Lemma module_init_run (w : world) :
  module_init w
  = (inr tt,
     {| net := net w;
        ui := ui w ++ page_config
                   :: (if truthy_opt OPENAI_API_KEY then []
                       else [St_warning key_not_set_warning]) |}).
Proof.
  unfold module_init, bind, st, page_config. cbn [net ui].
  destruct (truthy_opt OPENAI_API_KEY); cbn [negb].
  - reflexivity.
  - cbn [net ui]. rewrite <- app_assoc. reflexivity.
Qed.

Lemma main_idle (f : form) (w : world) :
  submitted f = false ->
  main f w = (inr tt, {| net := net w; ui := ui w ++ page_head |}).
Proof.
  intros Hs. unfold main. rewrite Hs. unfold bind, st, ret. cbn [net ui].
  rewrite <- !app_assoc. reflexivity.
Qed.

Lemma main_without_key (f : form) (w : world) :
  truthy_opt OPENAI_API_KEY = false ->
  submitted f = true ->
  main f w
  = (inr tt, {| net := net w;
                ui := ui w ++ page_head ++ [St_error key_not_set_error] |}).
Proof.
  intros Hkey Hs. unfold main. rewrite Hs, Hkey.
  cbn [negb]. unfold bind, st. cbn [net ui].
  rewrite <- !app_assoc. reflexivity.
Qed.

Lemma client_of_key :
  client = if truthy_opt OPENAI_API_KEY
           then Some {| api_key := OPENAI_API_KEY |} else None.
Proof. reflexivity. Qed.

(** With a key, a submission adds exactly the request of the profile to the
    trace, whatever the service answers and whatever is rendered. *)
Lemma main_submitted_net (c : OpenAI) (f : form) (w : world) :
  client = Some c ->
  submitted f = true ->
  net (snd (main f w)) = net w ++ [build_request (profile_of f)].
Proof.
  intros Hc Hs. rewrite (main_submitted f w Hc Hs). cbv zeta.
  destruct (reply_outcome _) as [e|awards];
    [reflexivity | apply show_results_net].
Qed.

(** X1.  A run of the script when the environment has no key, or an empty
    one: the page shows the configuration warning above the form, a
    submission is answered by the configuration error alone, the script
    ends normally and no call is made. *)
Theorem script_without_key (f : form) (w : world) :
  os_environ_get environ (py "OPENAI_API_KEY") = None
  \/ os_environ_get environ (py "OPENAI_API_KEY") = Some [] ->
  script f w
  = (inr tt,
     {| net := net w;
        ui := ui w ++ [page_config; St_warning key_not_set_warning]
                   ++ page_head
                   ++ (if submitted f then [St_error key_not_set_error]
                       else []) |}).
Proof.
  intros Henv.
  assert (Hkey : truthy_opt OPENAI_API_KEY = false)
    by (unfold OPENAI_API_KEY; destruct Henv as [-> | ->]; reflexivity).
  unfold script, bind. rewrite module_init_run, Hkey.
  destruct (submitted f) eqn:Hs.
  - rewrite (main_without_key f _ Hkey Hs). cbn [net ui].
    rewrite <- !app_assoc. reflexivity.
  - rewrite (main_idle f _ Hs). cbn [net ui].
    rewrite <- !app_assoc, app_nil_r. reflexivity.
Qed.

(** X2.  Before the button is pressed the script only draws the page: the
    configuration, the warning when there is no key, the head of the page
    and the form.  No profile is built, no call is made, nothing fails. *)
Theorem script_idle (f : form) (w : world) :
  submitted f = false ->
  script f w
  = (inr tt,
     {| net := net w;
        ui := ui w ++ page_config
                   :: (if truthy_opt OPENAI_API_KEY then []
                       else [St_warning key_not_set_warning])
                   ++ page_head |}).
Proof.
  intros Hs. unfold script, bind. rewrite module_init_run, (main_idle f _ Hs).
  cbn [net ui]. rewrite <- app_assoc. reflexivity.
Qed.

(** X3.  The calls of one run of the script: exactly one, carrying the
    request built from the profile, when the form is submitted and a key is
    configured; none otherwise.  This holds whether the service answers,
    fails, or sends something the page cannot render. *)
Theorem script_calls (f : form) (w : world) :
  net (snd (script f w))
  = net w ++ (if submitted f && truthy_opt OPENAI_API_KEY
              then [build_request (profile_of f)]
              else []).
Proof.
  unfold script, bind. rewrite module_init_run.
  set (w1 := {| net := net w; ui := _ |}).
  change (net w) with (net w1).
  destruct (submitted f) eqn:Hs; cbn [andb].
  - destruct (truthy_opt OPENAI_API_KEY) eqn:Hkey.
    + apply (main_submitted_net (c := {| api_key := OPENAI_API_KEY |}));
        [rewrite client_of_key, Hkey; reflexivity | exact Hs].
    + rewrite (main_without_key f _ Hkey Hs). cbn [snd net].
      rewrite app_nil_r. reflexivity.
  - rewrite (main_idle f _ Hs). cbn [snd net]. rewrite app_nil_r. reflexivity.
Qed.


(** *** Failures of the call and of the completion *)

(** Whatever exception leaves the fetcher, [main] reports it and stops: the
    call is on the trace, the page ends with the contact error carrying the
    text of the exception, and no result element follows. *)
Lemma main_fetch_failed (c : OpenAI) (f : form) (w : world) (e : exn) :
  client = Some c ->
  submitted f = true ->
  reply_outcome (service c (net w) (build_request (profile_of f))) = inl e ->
  main f w
  = (inr tt,
     {| net := net w ++ [build_request (profile_of f)];
        ui := ui w ++ page_head
                   ++ [spinner;
                       St_error (py "Error while contacting AI: " ++ exn_msg e)] |}).
Proof.
  intros Hc Hs Hout. rewrite (main_submitted f w Hc Hs). cbv zeta.
  rewrite Hout. unfold st. cbn [net ui]. rewrite <- !app_assoc. reflexivity.
Qed.

(** X4.  When the client raises out of [create] (network, authentication,
    quota), the fetcher passes the exception on unchanged, [main] catches it
    and shows the contact error with the text of the exception; the results
    part of the page is not drawn and [main] returns normally.  The failed
    call is not repeated. *)
Theorem upstream_failure_is_reported
    (c : OpenAI) (f : form) (w : world) (e : exn) :
  client = Some c ->
  submitted f = true ->
  service c (net w) (build_request (profile_of f)) = inl e ->
  ai_fetch_awards (profile_of f) w
  = (inl e, {| net := net w ++ [build_request (profile_of f)]; ui := ui w |})
  /\ main f w
     = (inr tt,
        {| net := net w ++ [build_request (profile_of f)];
           ui := ui w ++ page_head
                      ++ [spinner;
                          St_error (py "Error while contacting AI: "
                                    ++ exn_msg e)] |}).
Proof.
  intros Hc Hs Hsvc. split.
  - rewrite (ai_fetch_awards_run _ w Hc), Hsvc. reflexivity.
  - apply (main_fetch_failed f w Hc Hs). rewrite Hsvc. reflexivity.
Qed.

(** X5.  A completion without any choice makes [response.choices[0]] raise
    [IndexError]; the page shows the contact error with the text
    [list index out of range] and [main] returns normally. *)
Theorem completion_without_choices_is_reported
    (c : OpenAI) (f : form) (w : world) (response : completion) :
  client = Some c ->
  submitted f = true ->
  service c (net w) (build_request (profile_of f)) = inr response ->
  choices response = [] ->
  fst (ai_fetch_awards (profile_of f) w)
  = inl (Exn IndexError (py "list index out of range"))
  /\ fst (main f w) = inr tt
  /\ ui (snd (main f w))
     = ui w ++ page_head
         ++ [spinner;
             St_error (py "Error while contacting AI: "
                       ++ py "list index out of range")].
Proof.
  intros Hc Hs Hsvc Hch.
  assert (Hout : reply_outcome (service c (net w) (build_request (profile_of f)))
                 = inl (Exn IndexError (py "list index out of range")))
    by (rewrite Hsvc; unfold reply_outcome; rewrite Hch; reflexivity).
  split.
  - rewrite (ai_fetch_awards_run _ w Hc). exact Hout.
  - rewrite (main_fetch_failed f w Hc Hs Hout). split; reflexivity.
Qed.

(** X6.  A completion whose first message has no content ([None]) makes
    [json.loads] raise [TypeError]; the page shows the contact error and
    [main] returns normally. *)
Theorem completion_without_content_is_reported
    (c : OpenAI) (f : form) (w : world)
    (response : completion) (choice0 : choice) (rest : list choice) :
  client = Some c ->
  submitted f = true ->
  service c (net w) (build_request (profile_of f)) = inr response ->
  choices response = choice0 :: rest ->
  message_content choice0 = None ->
  fst (ai_fetch_awards (profile_of f) w)
  = inl (Exn TypeError
             (py "the JSON object must be str, bytes or bytearray, not NoneType"))
  /\ fst (main f w) = inr tt
  /\ ui (snd (main f w))
     = ui w ++ page_head
         ++ [spinner;
             St_error (py "Error while contacting AI: "
                       ++ py "the JSON object must be str, bytes or bytearray, not NoneType")].
Proof.
  intros Hc Hs Hsvc Hch Hmc.
  assert (Hout : reply_outcome (service c (net w) (build_request (profile_of f)))
                 = inl (Exn TypeError
                            (py "the JSON object must be str, bytes or bytearray, not NoneType")))
    by (rewrite Hsvc; unfold reply_outcome; rewrite Hch, Hmc; reflexivity).
  split.
  - rewrite (ai_fetch_awards_run _ w Hc). exact Hout.
  - rewrite (main_fetch_failed f w Hc Hs Hout). split; reflexivity.
Qed.

(** X7.  A reply that is valid JSON but not an object (an array, a string,
    a number, [null], ...) has no [get]: the fetcher raises
    [AttributeError] naming the type, the page shows the contact error, and
    [main] returns normally.  Only the value under [awards] of an object
    ever reaches the renderer. *)
Theorem non_object_reply_is_reported
    (c : OpenAI) (f : form) (w : world)
    (response : completion) (choice0 : choice) (rest : list choice)
    (text : pystr) (data : pyval) :
  client = Some c ->
  submitted f = true ->
  service c (net w) (build_request (profile_of f)) = inr response ->
  choices response = choice0 :: rest ->
  message_content choice0 = Some text ->
  json_parse text = inr data ->
  (forall d, data <> PDict d) ->
  fst (ai_fetch_awards (profile_of f) w)
  = inl (Exn AttributeError
             (py "'" ++ type_name data ++ py "' object has no attribute 'get'"))
  /\ fst (main f w) = inr tt
  /\ ui (snd (main f w))
     = ui w ++ page_head
         ++ [spinner;
             St_error (py "Error while contacting AI: "
                       ++ py "'" ++ type_name data
                       ++ py "' object has no attribute 'get'")].
Proof.
  intros Hc Hs Hsvc Hch Hmc Hparse Hnd.
  assert (Hout : reply_outcome (service c (net w) (build_request (profile_of f)))
                 = inl (no_attribute_get data)).
  { rewrite Hsvc. unfold reply_outcome. rewrite Hch, Hmc, Hparse.
    destruct data; try reflexivity. exfalso. eapply Hnd. reflexivity. }
  split.
  - rewrite (ai_fetch_awards_run _ w Hc). exact Hout.
  - rewrite (main_fetch_failed f w Hc Hs Hout). split; reflexivity.
Qed.

(** X8.  Nothing is cached between runs: submitting the same form twice
    makes two calls with the same request, the second one after the
    first. *)
Theorem resubmission_calls_again (c : OpenAI) (f : form) (w : world) :
  client = Some c ->
  submitted f = true ->
  net (snd (main f (snd (main f w))))
  = net w ++ [build_request (profile_of f); build_request (profile_of f)].
Proof.
  intros Hc Hs.
  rewrite (main_submitted_net f (snd (main f w)) Hc Hs).
  rewrite (main_submitted_net f w Hc Hs).
  rewrite <- app_assoc. reflexivity.
Qed.


(** *** The list of results *)

(** Every list of values is made of dicts only, or has a first element that
    is not a dict. *)
Lemma dicts_or_first_non_dict (items : list pyval) :
  (exists ds, items = map PDict ds)
  \/ (exists ds v rest,
        items = map PDict ds ++ v :: rest /\ forall d, v <> PDict d).
Proof.
  induction items as [|x items IH].
  - left. exists []. reflexivity.
  - assert (Hx : (exists d, x = PDict d) \/ (forall d, x <> PDict d))
      by (destruct x; try (right; intros d E; discriminate E);
          left; eexists; reflexivity).
    destruct Hx as [[d ->] | Hx].
    + destruct IH as [[ds ->] | [ds [v [rest [-> Hv]]]]].
      * left. exists (d :: ds). reflexivity.
      * right. exists (d :: ds), v, rest. split; [reflexivity|exact Hv].
    + right. exists [], x, items. split; [reflexivity|exact Hx].
Qed.

(** The loop stops at the first element that is not a dict: the elements
    before it are on the page, its container is open, and the exception
    names its type. *)
Lemma for_enumerate_stops
    (ds : list pydict) (v : pyval) (rest : list pyval) (start : Z) (w : world) :
  (forall d, v <> PDict d) ->
  for_enumerate start (map PDict ds ++ v :: rest) render_award w
  = (inl (no_attribute_get v),
     {| net := net w;
        ui := ui w ++ awards_elements start ds ++ [St_container] |}).
Proof.
  intros Hv. revert start w.
  induction ds as [|d ds IH]; intros start w;
    cbn [map app for_enumerate awards_elements]; unfold bind.
  - rewrite (render_award_not_dict start w Hv). reflexivity.
  - rewrite render_award_run, IH. cbn [net ui].
    rewrite <- !app_assoc. reflexivity.
Qed.

(** The results part of the page for a truthy value that can be iterated. *)
Lemma show_results_iterable (awards : pyval) (items : list pyval) (w : world) :
  truthy awards = true ->
  py_iter awards = ret items ->
  show_results awards w
  = bind (for_enumerate 1 items render_award)
         (fun _ => st (St_caption closing_caption))
         {| net := net w; ui := ui w ++ results_head |}.
Proof.
  intros Ht Hit. unfold show_results, bind at 1 2, st at 1 2.
  rewrite Ht. cbn [negb net ui]. rewrite Hit.
  unfold bind at 1, ret at 1. rewrite <- !app_assoc. reflexivity.
Qed.

(** X9.  When an element of the awards list is not a dict, rendering stops
    there with an [AttributeError] that [main] does not catch: the items
    before it stay on the page, the container of the offending item is
    open, and neither the items after it nor the closing caption are
    drawn. *)
Theorem rendering_stops_at_first_non_dict
    (ds : list pydict) (v : pyval) (rest : list pyval) (w : world) :
  (forall d, v <> PDict d) ->
  show_results (PList (map PDict ds ++ v :: rest)) w
  = (inl (Exn AttributeError
              (py "'" ++ type_name v ++ py "' object has no attribute 'get'")),
     {| net := net w;
        ui := ui w ++ results_head ++ awards_elements 1 ds ++ [St_container] |}).
Proof.
  intros Hv.
  rewrite show_results_iterable with (items := map PDict ds ++ v :: rest);
    [| destruct ds; reflexivity | reflexivity].
  unfold bind. rewrite (for_enumerate_stops ds rest 1 _ Hv).
  cbn [net ui]. rewrite <- !app_assoc. reflexivity.
Qed.

(** X10.  The results part of the page is drawn to its end exactly when the
    fetched value is falsy (the warning) or a list all of whose elements
    are dicts; every other value leaves [main] as an uncaught exception. *)
Theorem results_drawn_iff_list_of_dicts (awards : pyval) (w : world) :
  fst (show_results awards w) = inr tt
  <-> truthy awards = false \/ exists ds, awards = PList (map PDict ds).
Proof.
  split.
  - intros Hok. destruct (truthy awards) eqn:Ht; [right|left; reflexivity].
    assert (Hitems : forall items,
               py_iter awards = ret items ->
               exists ds, items = map PDict ds).
    { intros items Hit.
      destruct (dicts_or_first_non_dict items)
        as [Hall | [ds [v [rest [-> Hv]]]]]; [exact Hall|].
      rewrite (@show_results_iterable awards _ w Ht Hit) in Hok.
      unfold bind in Hok. rewrite (for_enumerate_stops ds rest 1 _ Hv) in Hok.
      discriminate Hok. }
    destruct awards as [| b | n | x | s | items | d];
      try (rewrite show_results_not_iterable in Hok by (exact Ht || exact I);
           discriminate Hok).
    + destruct s as [|ch s]; [discriminate Ht|].
      destruct (Hitems _ eq_refl) as [[|d0 ds] E]; discriminate E.
    + destruct (Hitems _ eq_refl) as [ds E]. exists ds. rewrite E. reflexivity.
    + destruct d as [|[k v] d]; [discriminate Ht|].
      destruct (Hitems _ eq_refl) as [[|d0 ds] E]; discriminate E.
  - intros [Hf | [ds ->]].
    + rewrite show_results_falsy by exact Hf. reflexivity.
    + destruct ds as [|d ds].
      * rewrite show_results_falsy by reflexivity. reflexivity.
      * rewrite show_results_dicts. reflexivity.
Qed.

Lemma awards_elements_indexed (ds : list pydict) (start : Z) (k : nat) :
  flat_map (fun p => award_elements (start + Z.of_nat (fst p)) (snd p))
           (combine (seq k (List.length ds)) ds)
  = awards_elements (start + Z.of_nat k) ds.
Proof.
  revert k. induction ds as [|d ds IH]; intros k; [reflexivity|].
  cbn [List.length seq combine flat_map fst snd awards_elements].
  rewrite IH. do 2 f_equal. lia.
Qed.

(** X11.  A non-empty list of dicts is rendered whole and in the order
    received: under the results head, the elements of the item at position
    [i] (from 0) carry the number [i + 1], each item appears once, nothing
    is sorted, merged or dropped, and the closing caption comes last. *)
Theorem results_in_order_numbered_from_one
    (d : pydict) (ds : list pydict) (w : world) :
  show_results (PList (map PDict (d :: ds))) w
  = (inr tt,
     {| net := net w;
        ui := ui w ++ results_head
                ++ flat_map (fun p => award_elements (1 + Z.of_nat (fst p)) (snd p))
                            (combine (seq 0 (List.length (d :: ds))) (d :: ds))
                ++ [St_caption closing_caption] |}).
Proof.
  rewrite show_results_dicts, (awards_elements_indexed (d :: ds) 1 0).
  reflexivity.
Qed.


(** *** One item on the page *)

(** X12.  The defaults of [award.get] stand in for missing keys only.  A
    key that is present with the JSON value [null] is shown as the text
    [None] in the heading, the category line and the explanation, is
    passed to [st.write] as [None] for the description, and gives no link
    element. *)
Theorem null_fields_are_printed_as_none (idx : Z) (d : pydict) (w : world) :
  exists new,
    render_award idx (PDict d) w
    = (inr tt, {| net := net w; ui := ui w ++ new |})
    /\ (dict_lookup (py "name") d = Some PNone ->
        In (St_markdown (py "**" ++ of_Z idx ++ py ". " ++ py "None" ++ py "**"))
           new)
    /\ (dict_lookup (py "category") d = Some PNone ->
        In (St_caption (py "Category: " ++ py "None")) new)
    /\ (dict_lookup (py "description") d = Some PNone ->
        In (St_write PNone) new)
    /\ (dict_lookup (py "link") d = Some PNone ->
        existsb is_link_element new = false)
    /\ (dict_lookup (py "why_it_matches") d = Some PNone ->
        In (St_markdown (py "*Why this was recommended:* " ++ py "None")) new).
Proof.
  exists (award_elements idx d).
  split; [apply render_award_run|].
  repeat split.
  - intros H. unfold award_elements. unfold dict_get at 1. rewrite H.
    right; left; reflexivity.
  - intros H. unfold award_elements. unfold dict_get at 2. rewrite H.
    right; right; left; reflexivity.
  - intros H. unfold award_elements. unfold dict_get at 3. rewrite H.
    right; right; right; left; reflexivity.
  - intros H. rewrite award_elements_link. unfold dict_get. rewrite H.
    reflexivity.
  - intros H. unfold award_elements.
    apply in_or_app; right. apply in_or_app; right.
    unfold dict_get. rewrite H. left; reflexivity.
Qed.

(** X13.  An item with all five fields, the texts being strings and the
    link not empty, puts exactly seven elements on the page, with every
    text as received: the category is not checked against the six allowed
    values, nothing is trimmed or shortened, and the description goes to
    [st.write] whatever its type. *)
Theorem complete_item_is_rendered_verbatim
    (idx : Z) (d : pydict) (w : world)
    (name category link why : pystr) (description : pyval) :
  dict_lookup (py "name") d = Some (PStr name) ->
  dict_lookup (py "category") d = Some (PStr category) ->
  dict_lookup (py "description") d = Some description ->
  dict_lookup (py "link") d = Some (PStr link) ->
  link <> [] ->
  dict_lookup (py "why_it_matches") d = Some (PStr why) ->
  render_award idx (PDict d) w
  = (inr tt,
     {| net := net w;
        ui := ui w
              ++ [ St_container;
                   St_markdown (py "**" ++ of_Z idx ++ py ". " ++ name ++ py "**");
                   St_caption (py "Category: " ++ category);
                   St_write description;
                   St_markdown (py "[Open official page](" ++ link ++ py ")");
                   St_markdown (py "*Why this was recommended:* " ++ why);
                   St_markdown (py "---") ] |}).
Proof.
  intros Hn Hc Hd Hl Hne Hw.
  rewrite render_award_run. unfold award_elements, dict_get.
  rewrite Hn, Hc, Hd, Hl, Hw.
  destruct link as [|ch link]; [contradiction Hne; reflexivity|].
  reflexivity.
Qed.

(** *** Errors and results never share a page *)

Lemma award_elements_no_error (idx : Z) (d : pydict) :
  existsb is_error_element (award_elements idx d) = false.
Proof.
  unfold award_elements.
  destruct (truthy (dict_get d (py "link") PNone)); reflexivity.
Qed.

Lemma render_award_elements (idx : Z) (award : pyval) (w : world) :
  exists new,
    ui (snd (render_award idx award w)) = ui w ++ new
    /\ existsb is_error_element new = false.
Proof.
  assert (Hx : (exists d, award = PDict d) \/ (forall d, award <> PDict d))
    by (destruct award; try (right; intros d E; discriminate E);
        left; eexists; reflexivity).
  destruct Hx as [[d ->] | Hx].
  - exists (award_elements idx d). rewrite render_award_run.
    split; [reflexivity|apply award_elements_no_error].
  - exists [St_container]. rewrite (render_award_not_dict idx w Hx).
    split; reflexivity.
Qed.

Lemma for_enumerate_elements (items : list pyval) (start : Z) (w : world) :
  exists new,
    ui (snd (for_enumerate start items render_award w)) = ui w ++ new
    /\ existsb is_error_element new = false.
Proof.
  revert start w. induction items as [|x items IH]; intros start w.
  - exists []. cbn. rewrite app_nil_r. split; reflexivity.
  - cbn [for_enumerate]. unfold bind.
    destruct (render_award_elements start x w) as [n1 [E1 N1]].
    destruct (render_award start x w) as [[e|[]] w1]; cbn [snd] in E1.
    + exists n1. split; [exact E1|exact N1].
    + destruct (IH (start + 1)%Z w1) as [n2 [E2 N2]].
      exists (n1 ++ n2). rewrite E2, E1, app_assoc, existsb_app, N1, N2.
      split; reflexivity.
Qed.

(** The results part of the page never holds an error element, whatever
    the value and however far the rendering gets. *)
Lemma show_results_elements (awards : pyval) (w : world) :
  exists new,
    ui (snd (show_results awards w)) = ui w ++ results_head ++ new
    /\ existsb is_error_element new = false.
Proof.
  destruct (truthy awards) eqn:Ht.
  - assert (Hitems : forall items,
               py_iter awards = ret items ->
               exists new,
                 ui (snd (show_results awards w)) = ui w ++ results_head ++ new
                 /\ existsb is_error_element new = false).
    { intros items Hit. rewrite (@show_results_iterable awards _ w Ht Hit).
      unfold bind.
      destruct (for_enumerate_elements items 1
                  {| net := net w; ui := ui w ++ results_head |})
        as [n [E N]].
      destruct (for_enumerate 1 items render_award _) as [[e|[]] w1];
        cbn [snd ui] in E.
      - exists n. cbn [snd]. rewrite E, <- app_assoc. split; [reflexivity|exact N].
      - exists (n ++ [St_caption closing_caption]).
        unfold st. cbn [snd ui]. rewrite E, <- !app_assoc, existsb_app, N.
        split; reflexivity. }
    destruct awards as [| b | n | x | s | items | d];
      try (apply (Hitems _ eq_refl));
      exists []; unfold show_results, bind, st; rewrite Ht;
      cbn [negb py_iter raise snd ui net]; rewrite <- !app_assoc;
      split; reflexivity.
  - exists [St_warning no_programs_warning].
    rewrite show_results_falsy by exact Ht. split; reflexivity.
Qed.

(** X14.  [main] calls [st.error] only on a run that draws no results, and
    such a run returns normally.  After the head of the page there is
    nothing (no submission), or the configuration error alone, or the
    spinner and the contact error alone, each with [main] returning
    normally; or the spinner and the results part, in which [main] makes
    no [st.error] call, whether the rendering completes or stops with an
    exception.  An exception that leaves [main] is not an [st.error] of
    [main]: what the Streamlit runtime then draws is outside this
    statement. *)
Theorem st_error_is_called_without_results (f : form) (w : world) :
  exists new,
    ui (snd (main f w)) = ui w ++ page_head ++ new
    /\ ((new = [] /\ fst (main f w) = inr tt)
        \/ (new = [St_error key_not_set_error] /\ fst (main f w) = inr tt)
        \/ (exists e,
              new = [spinner;
                     St_error (py "Error while contacting AI: " ++ exn_msg e)]
              /\ fst (main f w) = inr tt)
        \/ (exists shown,
              new = spinner :: results_head ++ shown
              /\ existsb is_error_element shown = false)).
Proof.
  destruct (submitted f) eqn:Hs.
  - destruct (truthy_opt OPENAI_API_KEY) eqn:Hkey.
    + pose proof client_of_key as Hc. rewrite Hkey in Hc.
      rewrite (main_submitted f w Hc Hs). cbv zeta.
      destruct (reply_outcome _) as [e|awards].
      * exists [spinner;
                St_error (py "Error while contacting AI: " ++ exn_msg e)].
        split.
        -- unfold st. cbn [snd ui]. rewrite <- !app_assoc. reflexivity.
        -- right; right; left. exists e. split; reflexivity.
      * destruct (show_results_elements awards
                    {| net := net w ++ [build_request (profile_of f)];
                       ui := ui w ++ page_head ++ [spinner] |})
          as [shown [E N]].
        exists (spinner :: results_head ++ shown). split.
        -- rewrite E. cbn [ui]. rewrite <- !app_assoc. reflexivity.
        -- right; right; right. exists shown.
           split; [reflexivity|exact N].
    + rewrite (main_without_key f w Hkey Hs).
      eexists. split; [reflexivity|]. right; left. split; reflexivity.
  - rewrite (main_idle f w Hs). exists [].
    split; [rewrite app_nil_r; reflexivity | left; split; reflexivity].
Qed.


(** *** The two text inputs *)

Lemma lstrip_spaces (s : pystr) :
  exists l, s = l ++ lstrip s /\ isblank l = true.
Proof.
  induction s as [|x s [l [E B]]]; simpl.
  - exists []. split; reflexivity.
  - destruct (isspace x) eqn:Hx.
    + exists (x :: l). split; [simpl; f_equal; exact E|].
      unfold isblank. simpl. rewrite Hx. exact B.
    + exists []. split; reflexivity.
Qed.

Lemma isblank_rev (s : pystr) : isblank (rev s) = isblank s.
Proof.
  unfold isblank. induction s as [|x s IH]; [reflexivity|].
  simpl. rewrite forallb_app, IH. simpl.
  rewrite andb_true_r. apply andb_comm.
Qed.

(** [strip] takes white space off the two ends and nothing else. *)
Lemma strip_decompose (s : pystr) :
  exists l r, s = l ++ strip s ++ r /\ isblank l = true /\ isblank r = true.
Proof.
  destruct (lstrip_spaces s) as [l [El Bl]].
  destruct (lstrip_spaces (rev (lstrip s))) as [r [Er Br]].
  exists l, (rev r). split; [|split; [exact Bl|]].
  - unfold strip, rstrip. rewrite <- rev_app_distr, <- Er, rev_involutive.
    exact El.
  - rewrite isblank_rev. exact Br.
Qed.

Lemma lstrip_blank (s : pystr) : isblank s = true -> lstrip s = [].
Proof.
  unfold isblank. induction s as [|x s IH]; simpl; [reflexivity|].
  destruct (isspace x); [exact IH|discriminate].
Qed.

Lemma strip_nil_iff (s : pystr) : strip s = [] <-> isblank s = true.
Proof.
  split.
  - intros E. destruct (strip_decompose s) as [l [r [Es [Bl Br]]]].
    rewrite E in Es. rewrite Es. unfold isblank in *.
    rewrite forallb_app. simpl. rewrite Bl, Br. reflexivity.
  - intros B. unfold strip. rewrite (lstrip_blank s B). reflexivity.
Qed.

(** C8.  On every submission the two text inputs lose the white space at
    their ends before they enter the profile, and the state is upper-cased
    besides.  The text typed for the state is white space, a core, white
    space, where the core starts and ends with a character that is not
    white space (or is empty); the profile holds the upper-case form of
    that core, character by character, with a to z sent to A to Z and the
    other ASCII characters kept.  The text typed for the ZIP code splits the
    same way and the profile holds its core.  Neither value has white space
    at either end, so the payload has none in the two fields. *)
Theorem state_and_zip_are_stripped (f : form) :
  upper_keeps_nonspace ->
  exists l1 core r1 l2 zip_value r2,
    state f = l1 ++ core ++ r1
    /\ isblank l1 = true /\ isblank r1 = true /\ trimmed core
    /\ zip_code f = l2 ++ zip_value ++ r2
    /\ isblank l2 = true /\ isblank r2 = true /\ trimmed zip_value
    /\ py_item (profile_of f) (py "zip_code") = Some (PStr zip_value)
    /\ py_item (profile_of f) (py "state")
       = Some (PStr (flat_map to_upper core))
    /\ (forall c, 97 <= c <= 122 -> to_upper c = [c - 32])
    /\ (forall c, c < 97 \/ 122 < c -> c < 128 -> to_upper c = [c])
    /\ trimmed (flat_map to_upper core).
Proof.
  intros Hup.
  destruct (strip_decompose (state f)) as [l1 [r1 [E1 [Bl1 Br1]]]].
  destruct (strip_decompose (zip_code f)) as [l2 [r2 [E2 [Bl2 Br2]]]].
  exists l1, (strip (state f)), r1, l2, (strip (zip_code f)), r2.
  do 3 (split; [assumption|]). split; [apply strip_trimmed|].
  do 3 (split; [assumption|]). split; [apply strip_trimmed|].
  do 2 (split; [reflexivity|]).
  split; [|split].
  - intros c [H1 H2]. unfold to_upper.
    replace ((97 <=? c) && (c <=? 122)) with true; [reflexivity|].
    symmetry. apply andb_true_iff. split; apply N.leb_le; assumption.
  - intros c Hout Hascii. unfold to_upper.
    replace ((97 <=? c) && (c <=? 122)) with false.
    + replace (c <? 128) with true; [reflexivity|].
      symmetry. apply N.ltb_lt. exact Hascii.
    + symmetry. apply andb_false_iff.
      destruct Hout as [Hlo|Hhi]; [left|right]; apply N.leb_gt; assumption.
  - apply (upper_trimmed Hup (strip_trimmed (state f))).
Qed.

(** X15.  What the profile keeps of the two text inputs: the ZIP code sent
    is the text typed without the white space at its two ends, and the
    state sent is the upper-case form of the text typed without the white
    space at its two ends.  White space inside the text is kept, and a ZIP
    code that is already stripped is sent as it is. *)
Theorem text_inputs_lose_only_surrounding_space (f : form) :
  exists l1 core r1 l2 zip r2,
    state f = l1 ++ core ++ r1
    /\ isblank l1 = true /\ isblank r1 = true /\ trimmed core
    /\ py_item (profile_of f) (py "state") = Some (PStr (upper core))
    /\ zip_code f = l2 ++ zip ++ r2
    /\ isblank l2 = true /\ isblank r2 = true /\ trimmed zip
    /\ py_item (profile_of f) (py "zip_code") = Some (PStr zip)
    /\ strip zip = zip.
Proof.
  destruct (strip_decompose (state f)) as [l1 [r1 [E1 [Bl1 Br1]]]].
  destruct (strip_decompose (zip_code f)) as [l2 [r2 [E2 [Bl2 Br2]]]].
  exists l1, (strip (state f)), r1, l2, (strip (zip_code f)), r2.
  repeat (split; [first [assumption | reflexivity | apply strip_trimmed]|]).
  apply strip_of_trimmed, strip_trimmed.
Qed.

(** X16.  A text input holding nothing but white space is sent as the empty
    string: the ZIP code of the profile is empty exactly when the text
    typed is blank, and a blank state gives an empty state. *)
Theorem blank_text_inputs_are_sent_empty (f : form) :
  (py_item (profile_of f) (py "zip_code") = Some (PStr [])
   <-> isblank (zip_code f) = true)
  /\ (isblank (state f) = true ->
      py_item (profile_of f) (py "state") = Some (PStr [])).
Proof.
  split.
  - rewrite <- strip_nil_iff. cbn [py_item profile_of].
    change (dict_lookup (py "zip_code") _)
      with (Some (PStr (strip (zip_code f)))).
    split; [intros E; inversion E; reflexivity | intros ->; reflexivity].
  - intros B. apply strip_nil_iff in B.
    change (py_item (profile_of f) (py "state"))
      with (Some (PStr (upper (strip (state f))))).
    rewrite B. reflexivity.
Qed.

Lemma isascii_app (a b : pystr) :
  isascii (a ++ b) = isascii a && isascii b.
Proof. apply forallb_app. Qed.

Lemma upper_isascii (s : pystr) :
  isascii s = true -> upper s = map ascii_upper s.
Proof.
  unfold isascii, upper. induction s as [|c s IH]; [reflexivity|].
  simpl. intros H. apply andb_true_iff in H. destruct H as [Hc Hs].
  rewrite (IH Hs). unfold to_upper, ascii_upper.
  destruct ((97 <=? c) && (c <=? 122)); [reflexivity|].
  rewrite Hc. reflexivity.
Qed.

Lemma ascii_upper_idempotent (c : codepoint) :
  ascii_upper (ascii_upper c) = ascii_upper c.
Proof.
  unfold ascii_upper.
  destruct ((97 <=? c) && (c <=? 122)) eqn:H; [|rewrite H; reflexivity].
  apply andb_true_iff in H. destruct H as [H1 H2].
  apply N.leb_le in H1, H2.
  replace (97 <=? c - 32) with false; [reflexivity|].
  symmetry. apply N.leb_gt. lia.
Qed.

Lemma ascii_upper_isascii (c : codepoint) :
  (c <? 128) = true -> (ascii_upper c <? 128) = true.
Proof.
  intros H. apply N.ltb_lt in H. unfold ascii_upper.
  destruct ((97 <=? c) && (c <=? 122)); apply N.ltb_lt; lia.
Qed.

Lemma ascii_upper_keeps_nonspace (c : codepoint) :
  isspace c = false -> isspace (ascii_upper c) = false.
Proof.
  intros H. unfold ascii_upper.
  destruct ((97 <=? c) && (c <=? 122)) eqn:Hl; [|exact H].
  apply andb_true_iff in Hl. destruct Hl as [H1 H2].
  apply N.leb_le in H1, H2. apply ascii_upper_nonspace. lia.
Qed.

Lemma map_ascii_upper_trimmed (s : pystr) :
  trimmed s -> trimmed (map ascii_upper s).
Proof.
  intros [Hh Hl]. split; intros c Hc.
  - destruct s as [|x s]; [discriminate|].
    simpl in Hc. inversion Hc; subst.
    apply ascii_upper_keeps_nonspace, Hh. reflexivity.
  - rewrite <- map_rev in Hc.
    destruct (rev s) as [|x r]; [discriminate|].
    simpl in Hc. inversion Hc; subst.
    apply ascii_upper_keeps_nonspace, Hl. reflexivity.
Qed.

(** X17.  For a state typed in ASCII, the state of the profile does not
    depend on the Unicode tables: it is the stripped text with each of the
    letters a to z replaced by its capital, of the same length as the
    stripped text.  Typing that value again gives the same value: the
    normalization is idempotent. *)
Theorem ascii_state_is_capitalized (f : form) :
  isascii (state f) = true ->
  py_item (profile_of f) (py "state")
  = Some (PStr (map ascii_upper (strip (state f))))
  /\ List.length (map ascii_upper (strip (state f)))
     = List.length (strip (state f))
  /\ upper (strip (map ascii_upper (strip (state f))))
     = map ascii_upper (strip (state f)).
Proof.
  intros Ha.
  assert (Hs : isascii (strip (state f)) = true).
  { destruct (strip_decompose (state f)) as [l [r [E _]]].
    rewrite E, !isascii_app in Ha.
    apply andb_true_iff in Ha. destruct Ha as [_ Ha].
    apply andb_true_iff in Ha. destruct Ha as [Ha _]. exact Ha. }
  split; [|split].
  - change (py_item (profile_of f) (py "state"))
      with (Some (PStr (upper (strip (state f))))).
    rewrite (upper_isascii _ Hs). reflexivity.
  - apply length_map.
  - rewrite (strip_of_trimmed (map_ascii_upper_trimmed (strip_trimmed (state f)))).
    rewrite upper_isascii.
    + rewrite map_map. apply map_ext. intros c. apply ascii_upper_idempotent.
    + unfold isascii in *. rewrite forallb_forall in *.
      intros c Hc. apply in_map_iff in Hc. destruct Hc as [x [<- Hx]].
      apply ascii_upper_isascii, Hs, Hx.
Qed.


(** *** The payload keeps the whole profile *)

Lemma hex_value_digit (n : N) : n < 16 -> hex_value (hex_digit n) = Some n.
Proof.
  intros Hn. unfold hex_value, hex_digit.
  destruct (n <? 10) eqn:H10.
  - apply N.ltb_lt in H10.
    replace ((48 <=? 48 + n) && (48 + n <=? 57)) with true.
    + f_equal. lia.
    + symmetry. apply andb_true_iff. split; apply N.leb_le; lia.
  - apply N.ltb_ge in H10.
    replace ((48 <=? 87 + n) && (87 + n <=? 57)) with false.
    + replace ((97 <=? 87 + n) && (87 + n <=? 102)) with true.
      * f_equal. lia.
      * symmetry. apply andb_true_iff. split; apply N.leb_le; lia.
    + symmetry. apply andb_false_iff. right. apply N.leb_gt. lia.
Qed.

(** The scanner undoes the escape of one character. *)
Lemma scanstring_escape_char (c : codepoint) (rest : pystr) :
  scanstring (escape_char c ++ rest)
  = match scanstring rest with
    | Some (body, r) => Some (c :: body, r)
    | None => None
    end.
Proof.
  unfold escape_char.
  destruct (c =? 34) eqn:E34;
    [apply N.eqb_eq in E34; subst c; reflexivity|].
  destruct (c =? 92) eqn:E92;
    [apply N.eqb_eq in E92; subst c; reflexivity|].
  destruct (c =? 8) eqn:E8;
    [apply N.eqb_eq in E8; subst c; reflexivity|].
  destruct (c =? 12) eqn:E12;
    [apply N.eqb_eq in E12; subst c; reflexivity|].
  destruct (c =? 10) eqn:E10;
    [apply N.eqb_eq in E10; subst c; reflexivity|].
  destruct (c =? 13) eqn:E13;
    [apply N.eqb_eq in E13; subst c; reflexivity|].
  destruct (c =? 9) eqn:E9;
    [apply N.eqb_eq in E9; subst c; reflexivity|].
  destruct (c <? 32) eqn:E32.
  - apply N.ltb_lt in E32.
    cbn [app scanstring].
    change (92 =? 34) with false. change (92 =? 92) with true.
    change (117 =? 117) with true. cbn iota.
    change (hex_value 48) with (Some 0).
    rewrite !hex_value_digit
      by (try (apply N.mod_lt; discriminate);
          apply N.Div0.div_lt_upper_bound; lia).
    destruct (scanstring rest) as [[body r]|]; [|reflexivity].
    do 2 f_equal. f_equal.
    rewrite (N.div_mod c 16) at 3 by discriminate. lia.
  - cbn [app scanstring]. rewrite E34, E92, E32. reflexivity.
Qed.

(** Reading back an encoded string: the string itself, and what follows
    its closing quote. *)
Lemma scanstring_encoded (s rest : pystr) :
  scanstring (flat_map escape_char s ++ 34 :: rest) = Some (s, rest).
Proof.
  induction s as [|c s IH]; [reflexivity|].
  cbn [flat_map]. rewrite <- app_assoc, scanstring_escape_char, IH.
  reflexivity.
Qed.

(** An encoded string is delimited by its own quotes. *)
Lemma encode_basestring_delimited (s1 s2 r1 r2 : pystr) :
  encode_basestring s1 ++ r1 = encode_basestring s2 ++ r2 ->
  s1 = s2 /\ r1 = r2.
Proof.
  unfold encode_basestring, dq. rewrite <- !app_assoc. cbn [app].
  intros H. inversion H as [H'].
  apply (f_equal scanstring) in H'. rewrite !scanstring_encoded in H'.
  inversion H'. split; reflexivity.
Qed.


Lemma py_string_of_uint (d : Decimal.uint) :
  py (NilEmpty.string_of_uint d) = uint_codes d.
Proof.
  induction d as [|d IH|d IH|d IH|d IH|d IH|d IH|d IH|d IH|d IH|d IH];
    [reflexivity|..];
    cbn [NilEmpty.string_of_uint uint_codes]; rewrite <- IH; reflexivity.
Qed.

(** The text of an [int] is the numeral of its decimal expansion, with a
    minus sign in front when it is negative. *)
Lemma of_Z_codes (z : Z) :
  of_Z z = match Z.to_int z with
           | Decimal.Pos d => uint_codes d
           | Decimal.Neg d => 45 :: uint_codes d
           end.
Proof.
  unfold of_Z, NilZero.string_of_int, NilZero.string_of_uint.
  destruct z as [|p|p]; cbn [Z.to_int].
  - reflexivity.
  - pose proof (DecimalPos.Unsigned.to_uint_nonnil p) as Hn.
    destruct (Pos.to_uint p) eqn:E; [contradiction Hn; reflexivity|..];
      apply py_string_of_uint.
  - pose proof (DecimalPos.Unsigned.to_uint_nonnil p) as Hn.
    destruct (Pos.to_uint p) eqn:E; [contradiction Hn; reflexivity|..];
      cbn iota;
      match goal with
      | |- py (String ?a ?s) = _ =>
          change (py (String a s)) with (45 :: py s);
          rewrite py_string_of_uint; reflexivity
      end.
Qed.

Lemma uint_codes_digits (d : Decimal.uint) :
  Forall (fun c => 48 <= c <= 57) (uint_codes d).
Proof.
  induction d; cbn [uint_codes]; constructor; try assumption; lia.
Qed.

Lemma uint_codes_inj (d1 d2 : Decimal.uint) :
  uint_codes d1 = uint_codes d2 -> d1 = d2.
Proof.
  revert d2. induction d1; intros d2 H; destruct d2;
    cbn [uint_codes] in H; try discriminate H; try reflexivity;
    inversion H; f_equal; auto.
Qed.

Lemma of_Z_inj (z1 z2 : Z) : of_Z z1 = of_Z z2 -> z1 = z2.
Proof.
  rewrite !of_Z_codes. intros H.
  rewrite <- (DecimalZ.of_to z1), <- (DecimalZ.of_to z2).
  pose proof (uint_codes_digits) as Hd.
  destruct (Z.to_int z1) as [d1|d1], (Z.to_int z2) as [d2|d2].
  - apply uint_codes_inj in H. subst. reflexivity.
  - specialize (Hd d1). rewrite H in Hd. inversion Hd; lia.
  - specialize (Hd d2). rewrite <- H in Hd. inversion Hd; lia.
  - inversion H as [H']. apply uint_codes_inj in H'. subst. reflexivity.
Qed.

Lemma of_Z_no_comma (z : Z) : ~ In 44 (of_Z z).
Proof.
  rewrite of_Z_codes. pose proof uint_codes_digits as Hd.
  destruct (Z.to_int z) as [d|d]; specialize (Hd d);
    rewrite Forall_forall in Hd; intros Hin.
  - apply Hd in Hin. lia.
  - destruct Hin as [E|Hin]; [discriminate E|]. apply Hd in Hin. lia.
Qed.

(** Two texts that do not hold a separator are told apart by it. *)
Lemma app_delimited (x : codepoint) (a b r1 r2 : pystr) :
  ~ In x a -> ~ In x b ->
  a ++ x :: r1 = b ++ x :: r2 ->
  a = b /\ r1 = r2.
Proof.
  revert b. induction a as [|y a IH]; intros [|z b] Ha Hb H;
    cbn [app] in H.
  - inversion H. split; reflexivity.
  - inversion H. subst. exfalso. apply Hb. left; reflexivity.
  - inversion H. subst. exfalso. apply Ha. left; reflexivity.
  - inversion H. subst.
    destruct (IH b) as [-> ->]; try assumption.
    + intros Hin. apply Ha. right; exact Hin.
    + intros Hin. apply Hb. right; exact Hin.
    + split; reflexivity.
Qed.

Lemma join_cons (sep p : pystr) (ps : list pystr) :
  join sep (p :: ps) = p ++ flat_map (fun x => sep ++ x) ps.
Proof.
  revert p. induction ps as [|q ps IH]; intros p.
  - cbn. rewrite app_nil_r. reflexivity.
  - change (join sep (p :: q :: ps)) with (p ++ sep ++ join sep (q :: ps)).
    cbn [flat_map]. rewrite IH, <- app_assoc. reflexivity.
Qed.

(** The items after the first one of an encoded list of strings, up to
    the closing bracket, determine the strings. *)
Lemma more_items_delimited (cs1 cs2 : list pystr) (r1 r2 : pystr) :
  flat_map (fun x => (py "," ++ newline_indent 2) ++ x)
           (map encode_basestring cs1)
    ++ newline_indent 1 ++ r1
  = flat_map (fun x => (py "," ++ newline_indent 2) ++ x)
             (map encode_basestring cs2)
      ++ newline_indent 1 ++ r2 ->
  cs1 = cs2 /\ r1 = r2.
Proof.
  revert cs2. induction cs1 as [|c1 cs1 IH]; intros [|c2 cs2] H.
  - cbn [map flat_map app] in H. apply app_inv_head in H.
    split; [reflexivity|exact H].
  - discriminate H.
  - discriminate H.
  - cbn [map flat_map] in H. rewrite <- !app_assoc in H.
    apply app_inv_head in H. apply app_inv_head in H.
    apply encode_basestring_delimited in H. destruct H as [-> H].
    apply IH in H. destruct H as [-> ->]. split; reflexivity.
Qed.

(** An encoded list of strings is delimited by its brackets. *)
Lemma string_list_delimited (cs1 cs2 : list pystr) (r1 r2 : pystr) :
  iterencode 1 (PList (map PStr cs1)) ++ r1
  = iterencode 1 (PList (map PStr cs2)) ++ r2 ->
  cs1 = cs2 /\ r1 = r2.
Proof.
  assert (Henc : forall c cs,
             iterencode 1 (PList (map PStr (c :: cs)))
             = py "[" ++ newline_indent 2 ++ encode_basestring c
               ++ flat_map (fun x => (py "," ++ newline_indent 2) ++ x)
                           (map encode_basestring cs)
               ++ newline_indent 1 ++ py "]").
  { intros c cs. cbn [map iterencode].
    rewrite join_cons, <- !app_assoc. do 3 f_equal.
    cbn [iterencode]. f_equal. f_equal.
    rewrite map_map. reflexivity. }
  destruct cs1 as [|c1 cs1], cs2 as [|c2 cs2].
  - intros H. cbn [map iterencode] in H. apply app_inv_head in H.
    split; [reflexivity|exact H].
  - rewrite Henc. intros H. discriminate H.
  - rewrite Henc. intros H. discriminate H.
  - rewrite !Henc, <- !app_assoc. intros H.
    apply app_inv_head in H. apply app_inv_head in H.
    apply encode_basestring_delimited in H. destruct H as [-> H].
    apply more_items_delimited in H. destruct H as [-> H].
    apply app_inv_head in H. subst. split; reflexivity.
Qed.

(** X18.  The request keeps the whole profile: two submissions send the
    same request exactly when their profiles are equal.  No two different
    values of the selections, of the household size, of the normalized
    state or of the stripped ZIP code are serialized to the same text,
    whatever characters the text inputs hold. *)
Theorem request_determines_profile (f1 f2 : form) :
  build_request (profile_of f1) = build_request (profile_of f2)
  <-> profile_of f1 = profile_of f2.
Proof.
  split; [|intros ->; reflexivity].
  intros H.
  assert (Hmsg : user_message (json_dumps (profile_of f1))
                 = user_message (json_dumps (profile_of f2))).
  { apply (f_equal (fun r => match messages r with
                             | [_; m] => content m
                             | _ => []
                             end)) in H.
    exact H. }
  clear H. unfold user_message in Hmsg.
  apply app_inv_head in Hmsg. apply app_inv_tail in Hmsg.
  rewrite !json_dumps_profile in Hmsg.
  do 4 apply app_inv_head in Hmsg.
  apply string_list_delimited in Hmsg. destruct Hmsg as [Hcats Hmsg].
  do 4 apply app_inv_head in Hmsg.
  apply encode_basestring_delimited in Hmsg. destruct Hmsg as [Hinc Hmsg].
  do 4 apply app_inv_head in Hmsg.
  change (py "," ++ ?r) with (44 :: r) in Hmsg.
  apply app_delimited in Hmsg; try apply of_Z_no_comma.
  destruct Hmsg as [Hsize Hmsg]. apply of_Z_inj in Hsize.
  do 3 apply app_inv_head in Hmsg.
  apply encode_basestring_delimited in Hmsg. destruct Hmsg as [Hstate Hmsg].
  do 4 apply app_inv_head in Hmsg.
  apply encode_basestring_delimited in Hmsg. destruct Hmsg as [Hzip Hmsg].
  do 4 apply app_inv_head in Hmsg.
  apply encode_basestring_delimited in Hmsg. destruct Hmsg as [Hgoal _].
  unfold profile_of, py_int.
  rewrite Hcats, Hinc, Hsize, Hstate, Hzip, Hgoal. reflexivity.
Qed.


(** *** A successful submission from end to end *)

(** X19.  When the reply decodes to an object whose [awards] is a non-empty
    list of dicts, a submission makes its one call and [main] returns
    normally with, after the head of the page: the spinner, the results
    head, every item in the order received numbered from 1, and the closing
    caption.  No warning and no error element is shown. *)
Theorem successful_submission_page
    (c : OpenAI) (f : form) (w : world)
    (response : completion) (choice0 : choice) (rest : list choice)
    (text : pystr) (d : pydict) (a : pydict) (ds : list pydict) :
  client = Some c ->
  submitted f = true ->
  service c (net w) (build_request (profile_of f)) = inr response ->
  choices response = choice0 :: rest ->
  message_content choice0 = Some text ->
  json_parse text = inr (PDict d) ->
  dict_lookup (py "awards") d = Some (PList (map PDict (a :: ds))) ->
  main f w
  = (inr tt,
     {| net := net w ++ [build_request (profile_of f)];
        ui := ui w ++ page_head ++ [spinner] ++ results_head
                   ++ awards_elements 1 (a :: ds)
                   ++ [St_caption closing_caption] |}).
Proof.
  intros Hc Hs Hsvc Hch Hmc Hparse Hawards.
  rewrite (main_submitted f w Hc Hs). cbv zeta.
  rewrite Hsvc. unfold reply_outcome. rewrite Hch, Hmc, Hparse.
  unfold dict_get. rewrite Hawards.
  rewrite show_results_dicts. cbn [net ui].
  rewrite <- !app_assoc. reflexivity.
Qed.

End App.

(* ================================================================== *)
(** ** The program on the sample inputs

    The script is run with the fragment decoder for [json.loads], a stub
    upstream, and the sample environments and forms. *)

Local Abbreviation run_fetch env reply f :=
  (ai_fetch_awards env JsonFragment.loads (stub_service reply) stub_repr
     (profile_of ascii_only_upper f) world0).

Local Abbreviation run_main env reply f :=
  (main env JsonFragment.loads (stub_service reply) stub_repr
     ascii_only_upper f world0).

Local Abbreviation sample_request f :=
  (build_request stub_repr (profile_of ascii_only_upper f)).

Lemma ascii_only_upper_keeps_nonspace : upper_keeps_nonspace ascii_only_upper.
Proof.
  intros c _ Hc. split; [discriminate|].
  constructor; [exact Hc|constructor].
Qed.

(** The text the round-trip example sends as the profile. *)
Example sample_profile_text :
  json_dumps stub_repr (profile_of ascii_only_upper sample_form)
  = py "{" ++ nl
    ++ py "  " ++ quoted (py "background_categories") ++ py ": [" ++ nl
    ++ py "    " ++ quoted (py "Rural household") ++ nl
    ++ py "  ]," ++ nl
    ++ py "  " ++ quoted (py "income_range") ++ py ": "
    ++ quoted (py "20,001–40,000") ++ py "," ++ nl
    ++ py "  " ++ quoted (py "household_size") ++ py ": 4," ++ nl
    ++ py "  " ++ quoted (py "state") ++ py ": " ++ quoted (py "TX")
    ++ py "," ++ nl
    ++ py "  " ++ quoted (py "zip_code") ++ py ": " ++ quoted [] ++ py "," ++ nl
    ++ py "  " ++ quoted (py "education_goal") ++ py ": "
    ++ quoted (py "Associate degree") ++ nl
    ++ py "}".
Proof. vm_compute. reflexivity. Qed.

(** *** Witnesses *)

(** C1 on the environment without a key. *)
Lemma no_credential_no_call_witness :
  truthy_opt (OPENAI_API_KEY env_without_key) = false
  /\ run_fetch env_without_key reply_empty sample_form
     = (inl client_not_initialized, world0)
  /\ net (snd (run_main env_without_key reply_empty sample_form)) = [].
Proof.
  assert (Hkey : truthy_opt (OPENAI_API_KEY env_without_key) = false)
    by reflexivity.
  destruct (no_credential_no_call env_without_key JsonFragment.loads
              (stub_service reply_empty) stub_repr ascii_only_upper
              (profile_of ascii_only_upper sample_form) sample_form world0 Hkey)
    as [_ [Hfetch Hmain]].
  split; [exact Hkey|]. split; [exact Hfetch|].
  rewrite (Hmain eq_refl). reflexivity.
Defined.

(** C7 on the environment with a key. *)
Lemma one_call_json_object_low_temperature_witness :
  client env_with_key = Some sample_client
  /\ net (snd (run_fetch env_with_key reply_empty sample_form))
     = [sample_request sample_form]
  /\ temperature (sample_request sample_form) = 0.3%Q.
Proof.
  assert (Hc : client env_with_key = Some sample_client) by reflexivity.
  split; [exact Hc|].
  destruct (one_call_json_object_low_temperature env_with_key
              JsonFragment.loads (stub_service reply_empty) stub_repr
              (profile_of ascii_only_upper sample_form) world0 Hc)
    as [Hnet [_ [_ [_ [Htemp _]]]]].
  split; [exact Hnet|exact Htemp].
Defined.

(** C3 on the reply that is not JSON. *)
Lemma invalid_json_is_reported_witness :
  JsonFragment.loads reply_not_json
  = inl (py "Expecting value: line 1 column 1 (char 0)")
  /\ fst (run_main env_with_key reply_not_json sample_form) = inr tt
  /\ ui (snd (run_main env_with_key reply_not_json sample_form))
     = page_head
         ++ [spinner;
             St_error (py "Error while contacting AI: "
                       ++ py "Expecting value: line 1 column 1 (char 0)")].
Proof.
  assert (Hparse : JsonFragment.loads reply_not_json
                   = inl (py "Expecting value: line 1 column 1 (char 0)"))
    by (vm_compute; reflexivity).
  split; [exact Hparse|].
  refine (proj2 (@invalid_json_is_reported env_with_key JsonFragment.loads
                   (stub_service reply_not_json) stub_repr ascii_only_upper
                   sample_client sample_form world0 _ _ [] reply_not_json _
                   eq_refl eq_refl eq_refl eq_refl eq_refl Hparse)).
Defined.

(** C6 on the reply with an empty array. *)
Lemma absent_or_empty_awards_is_soft_witness :
  JsonFragment.loads reply_empty = inr (PDict [(py "awards", PList [])])
  /\ fst (run_fetch env_with_key reply_empty sample_form) = inr (PList [])
  /\ fst (run_main env_with_key reply_empty sample_form) = inr tt.
Proof.
  assert (Hparse : JsonFragment.loads reply_empty
                   = inr (PDict [(py "awards", PList [])]))
    by (vm_compute; reflexivity).
  split; [exact Hparse|].
  destruct (@absent_or_empty_awards_is_soft env_with_key JsonFragment.loads
              (stub_service reply_empty) stub_repr ascii_only_upper
              sample_client sample_form world0 _ _ [] reply_empty _
              eq_refl eq_refl eq_refl eq_refl eq_refl Hparse
              (or_intror eq_refl))
    as [Hfetch [Hmain _]].
  split; [exact Hfetch|exact Hmain].
Defined.

(** C5 on the form with padded text inputs. *)
Lemma profile_payload_witness :
  client env_with_key = Some sample_client
  /\ submitted padded_form = true
  /\ net (snd (run_main env_with_key reply_empty padded_form))
     = [sample_request padded_form]
  /\ py_item (profile_of ascii_only_upper padded_form) (py "state")
     = Some (PStr (py "TX"))
  /\ py_item (profile_of ascii_only_upper padded_form) (py "zip_code")
     = Some (PStr (py "78701")).
Proof.
  assert (Hc : client env_with_key = Some sample_client) by reflexivity.
  split; [exact Hc|]. split; [reflexivity|].
  destruct (profile_payload env_with_key JsonFragment.loads
              (stub_service reply_empty) stub_repr ascii_only_upper
              padded_form world0 Hc eq_refl)
    as [Hnet [_ [_ [_ [_ [Hstate [Hzip _]]]]]]].
  split; [exact Hnet|]. split.
  - rewrite Hstate. vm_compute. reflexivity.
  - rewrite Hzip. vm_compute. reflexivity.
Defined.

(** C8 on the form with padded text inputs. *)
Lemma state_and_zip_are_stripped_witness :
  upper_keeps_nonspace ascii_only_upper
  /\ exists l1 core r1 l2 zip_value r2,
       state padded_form = l1 ++ core ++ r1
       /\ isblank l1 = true /\ isblank r1 = true /\ trimmed core
       /\ zip_code padded_form = l2 ++ zip_value ++ r2
       /\ isblank l2 = true /\ isblank r2 = true /\ trimmed zip_value
       /\ py_item (profile_of ascii_only_upper padded_form) (py "zip_code")
          = Some (PStr zip_value)
       /\ py_item (profile_of ascii_only_upper padded_form) (py "state")
          = Some (PStr (flat_map (to_upper ascii_only_upper) core))
       /\ trimmed (flat_map (to_upper ascii_only_upper) core).
Proof.
  split; [exact ascii_only_upper_keeps_nonspace|].
  destruct (state_and_zip_are_stripped padded_form
              ascii_only_upper_keeps_nonspace)
    as [l1 [core [r1 [l2 [zip_value [r2
         [E1 [B1 [B2 [T1 [E2 [B3 [B4 [T2 [Hz [Hs [_ [_ T3]]]]]]]]]]]]]]]]]].
  exists l1, core, r1, l2, zip_value, r2.
  repeat (split; [assumption|]). exact T3.
Defined.

(** *** Replies that break the contract *)

(** C2.  The stub upstream answers with an object whose [awards] is the
    number 5.  The decoder accepts the text, [ai_fetch_awards] returns the
    number to its caller, not a list, and [main], which iterates over the
    result after its [try] statement, ends with an uncaught [TypeError]. *)
Theorem number_under_awards_reaches_caller :
  JsonFragment.loads reply_number = inr (PDict [(py "awards", PInt 5)])
  /\ fst (run_fetch env_with_key reply_number sample_form) = inr (PInt 5)
  /\ is_list (PInt 5) = false
  /\ fst (run_main env_with_key reply_number sample_form)
     = inl (Exn TypeError (py "'int' object is not iterable")).
Proof.
  assert (Hparse : JsonFragment.loads reply_number
                   = inr (PDict [(py "awards", PInt 5)]))
    by (vm_compute; reflexivity).
  assert (Hc : client env_with_key = Some sample_client) by reflexivity.
  split; [exact Hparse|]. split; [|split; [reflexivity|]].
  - apply (@awards_value_returned_as_is env_with_key JsonFragment.loads
             (stub_service reply_number) stub_repr sample_client _ world0
             _ _ [] reply_number _ (PInt 5) Hc eq_refl eq_refl eq_refl Hparse).
    reflexivity.
  - rewrite (main_submitted env_with_key JsonFragment.loads
               (stub_service reply_number) stub_repr ascii_only_upper
               sample_form world0 Hc eq_refl).
    cbv zeta. unfold stub_service, reply_outcome.
    cbn [choices message_content]. rewrite Hparse.
    assert (Hget : dict_get [(py "awards", PInt 5)] (py "awards") (PList [])
                   = PInt 5) by (vm_compute; reflexivity).
    rewrite Hget.
    rewrite show_results_not_iterable by (reflexivity || exact I).
    vm_compute. reflexivity.
Qed.


(** C5, as stated, fails on form values with white space around the text
    inputs: the ZIP code sent is not the one typed, and the state is more
    than upper-cased. *)
Lemma padded_inputs_counterexample :
  py_item (profile_of ascii_only_upper padded_form) (py "zip_code")
  = Some (PStr (py "78701"))
  /\ py_item (profile_of ascii_only_upper padded_form) (py "zip_code")
     <> Some (PStr (zip_code padded_form))
  /\ py_item (profile_of ascii_only_upper padded_form) (py "state")
     = Some (PStr (py "TX"))
  /\ py_item (profile_of ascii_only_upper padded_form) (py "state")
     <> Some (PStr (upper ascii_only_upper (state padded_form))).
Proof.
  repeat split; try (vm_compute; reflexivity); vm_compute; discriminate.
Qed.

(* ================================================================== *)
(** ** The further properties on the sample inputs *)

(** X1 on the environment whose key is the empty string. *)
Lemma script_without_key_witness :
  os_environ_get env_with_empty_key (py "OPENAI_API_KEY") = Some []
  /\ net (snd (script env_with_empty_key JsonFragment.loads
                 (stub_service reply_empty) stub_repr ascii_only_upper
                 sample_form world0)) = []
  /\ ui (snd (script env_with_empty_key JsonFragment.loads
                (stub_service reply_empty) stub_repr ascii_only_upper
                sample_form world0))
     = [page_config; St_warning key_not_set_warning] ++ page_head
       ++ [St_error key_not_set_error].
Proof.
  assert (Henv : os_environ_get env_with_empty_key (py "OPENAI_API_KEY")
                 = Some []) by reflexivity.
  split; [exact Henv|].
  rewrite (script_without_key env_with_empty_key JsonFragment.loads
             (stub_service reply_empty) stub_repr ascii_only_upper
             sample_form world0 (or_intror Henv)).
  split; reflexivity.
Defined.

(** X2 on the form before the button is pressed, with a key. *)
Lemma script_idle_witness :
  submitted idle_form = false
  /\ script env_with_key JsonFragment.loads (stub_service reply_empty)
       stub_repr ascii_only_upper idle_form world0
     = (inr tt, {| net := []; ui := page_config :: page_head |}).
Proof.
  split; [reflexivity|].
  rewrite (script_idle env_with_key JsonFragment.loads
             (stub_service reply_empty) stub_repr ascii_only_upper
             idle_form world0 eq_refl).
  reflexivity.
Defined.

(** X4 on a service that cannot be reached. *)
Lemma upstream_failure_is_reported_witness :
  client env_with_key = Some sample_client
  /\ main env_with_key JsonFragment.loads
       (const_service (inl connection_error)) stub_repr ascii_only_upper
       sample_form world0
     = (inr tt,
        {| net := [sample_request sample_form];
           ui := page_head
                 ++ [spinner;
                     St_error (py "Error while contacting AI: "
                               ++ py "Connection error.")] |}).
Proof.
  assert (Hc : client env_with_key = Some sample_client) by reflexivity.
  split; [exact Hc|].
  exact (proj2 (@upstream_failure_is_reported env_with_key JsonFragment.loads
                  (const_service (inl connection_error)) stub_repr
                  ascii_only_upper sample_client sample_form world0
                  connection_error Hc eq_refl eq_refl)).
Defined.

(** X5 on a completion with no choice. *)
Lemma completion_without_choices_is_reported_witness :
  client env_with_key = Some sample_client
  /\ fst (main env_with_key JsonFragment.loads
            (const_service (inr {| choices := [] |})) stub_repr
            ascii_only_upper sample_form world0) = inr tt.
Proof.
  assert (Hc : client env_with_key = Some sample_client) by reflexivity.
  split; [exact Hc|].
  exact (proj1 (proj2
    (@completion_without_choices_is_reported env_with_key JsonFragment.loads
       (const_service (inr {| choices := [] |})) stub_repr ascii_only_upper
       sample_client sample_form world0 {| choices := [] |}
       Hc eq_refl eq_refl eq_refl))).
Defined.

(** X6 on a completion whose message has no content. *)
Lemma completion_without_content_is_reported_witness :
  client env_with_key = Some sample_client
  /\ fst (main env_with_key JsonFragment.loads
            (const_service
               (inr {| choices := [ {| message_content := None |} ] |}))
            stub_repr ascii_only_upper sample_form world0) = inr tt.
Proof.
  assert (Hc : client env_with_key = Some sample_client) by reflexivity.
  split; [exact Hc|].
  exact (proj1 (proj2
    (@completion_without_content_is_reported env_with_key JsonFragment.loads
       (const_service
          (inr {| choices := [ {| message_content := None |} ] |}))
       stub_repr ascii_only_upper sample_client sample_form world0
       {| choices := [ {| message_content := None |} ] |}
       {| message_content := None |} []
       Hc eq_refl eq_refl eq_refl eq_refl))).
Defined.

(** X7 on the reply that is an array. *)
Lemma non_object_reply_is_reported_witness :
  JsonFragment.loads reply_array = inr (PList [PInt 1; PInt 2])
  /\ fst (run_main env_with_key reply_array sample_form) = inr tt
  /\ ui (snd (run_main env_with_key reply_array sample_form))
     = page_head
       ++ [spinner;
           St_error (py "Error while contacting AI: "
                     ++ py "'" ++ py "list"
                     ++ py "' object has no attribute 'get'")].
Proof.
  assert (Hparse : JsonFragment.loads reply_array
                   = inr (PList [PInt 1; PInt 2]))
    by (vm_compute; reflexivity).
  split; [exact Hparse|].
  refine (proj2
    (@non_object_reply_is_reported env_with_key JsonFragment.loads
       (stub_service reply_array) stub_repr ascii_only_upper
       sample_client sample_form world0 _ _ [] reply_array
       (PList [PInt 1; PInt 2])
       eq_refl eq_refl eq_refl eq_refl eq_refl Hparse _)).
  intros d E. discriminate E.
Defined.

(** X8 on two submissions of the form of the example. *)
Lemma resubmission_calls_again_witness :
  client env_with_key = Some sample_client
  /\ net (snd (main env_with_key JsonFragment.loads
                 (stub_service reply_empty) stub_repr ascii_only_upper
                 sample_form
                 (snd (run_main env_with_key reply_empty sample_form))))
     = [sample_request sample_form; sample_request sample_form].
Proof.
  assert (Hc : client env_with_key = Some sample_client) by reflexivity.
  split; [exact Hc|].
  exact (@resubmission_calls_again env_with_key JsonFragment.loads
           (stub_service reply_empty) stub_repr ascii_only_upper
           sample_client sample_form world0 Hc eq_refl).
Defined.

(** X9 on a list whose second element is a string. *)
Lemma rendering_stops_at_first_non_dict_witness :
  fst (show_results stub_repr
         (PList (map PDict [sample_award]
                 ++ PStr (py "Pell Grant") :: [PDict sample_award]))
         world0)
  = inl (Exn AttributeError
             (py "'" ++ type_name (PStr (py "Pell Grant"))
              ++ py "' object has no attribute 'get'")).
Proof.
  rewrite (@rendering_stops_at_first_non_dict stub_repr [sample_award]
             (PStr (py "Pell Grant")) [PDict sample_award] world0);
    [reflexivity|].
  intros d E. discriminate E.
Defined.

(** X13 on the sample item. *)
Lemma complete_item_is_rendered_verbatim_witness :
  ui (snd (render_award stub_repr 1 (PDict sample_award) world0))
  = [ St_container;
      St_markdown (py "**" ++ of_Z 1 ++ py ". " ++ py "Pell Grant" ++ py "**");
      St_caption (py "Category: " ++ py "federal aid");
      St_write (PStr (py "Need-based grant for undergraduates."));
      St_markdown (py "[Open official page](" ++ py "https://studentaid.gov/"
                   ++ py ")");
      St_markdown (py "*Why this was recommended:* "
                   ++ py "Household income is in range.");
      St_markdown (py "---") ].
Proof.
  rewrite (@complete_item_is_rendered_verbatim stub_repr 1 sample_award world0
             (py "Pell Grant") (py "federal aid") (py "https://studentaid.gov/")
             (py "Household income is in range.")
             (PStr (py "Need-based grant for undergraduates."))
             eq_refl eq_refl eq_refl eq_refl);
    [reflexivity | discriminate | reflexivity].
Defined.

(** X17 on the form with padded text inputs. *)
Lemma ascii_state_is_capitalized_witness :
  isascii (state padded_form) = true
  /\ py_item (profile_of ascii_only_upper padded_form) (py "state")
     = Some (PStr (py "TX")).
Proof.
  assert (Ha : isascii (state padded_form) = true) by reflexivity.
  split; [exact Ha|].
  rewrite (proj1 (ascii_state_is_capitalized ascii_only_upper padded_form Ha)).
  vm_compute. reflexivity.
Defined.


(** X18 on the padded form and the form typed in normalized shape: the
    two send the same request, so their profiles are equal. *)
Lemma request_determines_profile_witness :
  state padded_form <> state normalized_form
  /\ profile_of ascii_only_upper padded_form
     = profile_of ascii_only_upper normalized_form.
Proof.
  split; [discriminate|].
  apply (proj1 (request_determines_profile stub_repr ascii_only_upper
                  padded_form normalized_form)).
  vm_compute. reflexivity.
Defined.


(** X19 on the reply whose only item has a name. *)
Lemma successful_submission_page_witness :
  JsonFragment.loads reply_name_only
  = inr (PDict [(py "awards", PList (map PDict [[(py "name", PStr (py "X"))]]))])
  /\ run_main env_with_key reply_name_only sample_form
     = (inr tt,
        {| net := [sample_request sample_form];
           ui := page_head ++ [spinner] ++ results_head
                 ++ awards_elements stub_repr 1 [[(py "name", PStr (py "X"))]]
                 ++ [St_caption closing_caption] |}).
Proof.
  assert (Hparse :
            JsonFragment.loads reply_name_only
            = inr (PDict [(py "awards",
                           PList (map PDict [[(py "name", PStr (py "X"))]]))]))
    by (vm_compute; reflexivity).
  split; [exact Hparse|].
  exact (@successful_submission_page env_with_key JsonFragment.loads
           (stub_service reply_name_only) stub_repr ascii_only_upper
           sample_client sample_form world0 _ _ [] reply_name_only _
           [(py "name", PStr (py "X"))] []
           eq_refl eq_refl eq_refl eq_refl eq_refl Hparse eq_refl).
Defined.


(** *** A reply outside the grammar that is decoded all the same *)

(** The grammar on the sample replies: the three JSON replies are valid, the
    refusal in prose is not, and the reply with [NaN] is valid once [null]
    stands where [NaN] stood. *)
Example sample_replies_against_the_grammar :
  Rfc8259.valid reply_empty = true
  /\ Rfc8259.valid reply_name_only = true
  /\ Rfc8259.valid reply_number = true
  /\ Rfc8259.valid reply_not_json = false
  /\ Rfc8259.valid (py "{" ++ quoted (py "x") ++ py ": null}") = true.
Proof. repeat split; vm_compute; reflexivity. Qed.

(** C3, as stated, fails on the reply [{"x": NaN}].  The text is not
    syntactically valid JSON, but [json.loads] decodes it to a dict with a
    float: [ai_fetch_awards] raises nothing and returns the empty list, and
    [main] shows the warning for an empty result, not the contact error. *)
Lemma nan_reply_counterexample :
  Rfc8259.valid reply_nan = false
  /\ JsonPython.loads reply_nan = inr (PDict [(py "x", PFloat S754_nan)])
  /\ ai_fetch_awards env_with_key JsonPython.loads (stub_service reply_nan)
       stub_repr (profile_of ascii_only_upper sample_form) world0
     = (inr (PList []),
        {| net := [sample_request sample_form]; ui := [] |})
  /\ main env_with_key JsonPython.loads (stub_service reply_nan) stub_repr
       ascii_only_upper sample_form world0
     = (inr tt,
        {| net := [sample_request sample_form];
           ui := page_head ++ [spinner] ++ results_head
                 ++ [St_warning no_programs_warning] |}).
Proof.
  assert (Hvalid : Rfc8259.valid reply_nan = false) by (vm_compute; reflexivity).
  assert (Hparse : JsonPython.loads reply_nan
                   = inr (PDict [(py "x", PFloat S754_nan)]))
    by (vm_compute; reflexivity).
  assert (Hc : client env_with_key = Some sample_client) by reflexivity.
  split; [exact Hvalid|]. split; [exact Hparse|]. split.
  - rewrite (@ai_fetch_awards_run env_with_key JsonPython.loads
               (stub_service reply_nan) stub_repr sample_client
               (profile_of ascii_only_upper sample_form) world0 Hc).
    unfold stub_service, reply_outcome. cbn [choices message_content].
    rewrite Hparse. reflexivity.
  - rewrite (@main_submitted env_with_key JsonPython.loads
               (stub_service reply_nan) stub_repr ascii_only_upper
               sample_client sample_form world0 Hc eq_refl).
    cbv zeta. unfold stub_service, reply_outcome.
    cbn [choices message_content]. rewrite Hparse.
    assert (Hget : dict_get [(py "x", PFloat S754_nan)] (py "awards") (PList [])
                   = PList []) by (vm_compute; reflexivity).
    rewrite Hget, show_results_falsy by reflexivity. reflexivity.
Qed.
